(** * Real-Time AI Conversation: the [App] component of src/App.tsx

    A shallow embedding of the React component: its five state variables,
    its four refs, the countdown timer, [startConversation],
    [stopConversation] and the two data-channel handlers ([dc.onopen],
    [dc.onmessage]), followed by the properties the specification states
    about them.

    JavaScript values are an inductive type; a function that can throw
    runs in a small state-and-exception monad in which the effects made
    before a throw are kept, as in JavaScript. *)

From Stdlib Require Import String Ascii List ZArith Bool Lia DecimalString.
Import ListNotations.

Set Warnings "-register-all".

Local Open Scope string_scope.
Local Open Scope list_scope.
Local Open Scope Z_scope.

(** ** Constants and enumerations *)

(** [const CONVERSATION_DURATION = 60;] *)
Definition CONVERSATION_DURATION : Z := 60.

(** [type AIState = 'idle' | 'connecting' | 'listening' | 'thinking' | 'speaking';] *)
Inductive AIState : Type :=
  | idle
  | connecting
  | listening
  | thinking
  | speaking.

(** Objects of the platform (peer connection, data channel, audio element,
    media track, interval) are known to the component by identity only. *)
Definition handle : Type := nat.

(** ** JavaScript values

    Everything the component reads out of a message is a value produced by
    [JSON.parse]; a missing property reads as [undefined].  Numbers are
    IEEE doubles: the component never computes with a number taken from a
    message, so the number type is a parameter together with the two
    operations the handlers can apply to it (truthiness, conversion to a
    string). *)

Section App.

Variable number : Type.
Variable number_truthy : number -> bool.
Variable number_to_string : number -> string.

Inductive value : Type :=
  | JUndefined
  | JNull
  | JBool (b : bool)
  | JNumber (n : number)
  | JString (s : string)
  | JArray (items : list value)
  | JObject (fields : list (string * value)).

(** Own property of an object; when a key occurs twice the later entry
    wins, as it does in [JSON.parse] and in an object literal. *)
Fixpoint own_property (k : string) (fields : list (string * value))
  : option value :=
  match fields with
  | [] => None
  | (k', v) :: rest =>
      match own_property k rest with
      | Some v' => Some v'
      | None => if String.eqb k' k then Some v else None
      end
  end.

(** Truthiness ([ToBoolean]). *)
Definition truthy (v : value) : bool :=
  match v with
  | JUndefined | JNull => false
  | JBool b => b
  | JNumber n => number_truthy n
  | JString s => negb (String.eqb s "")
  | JArray _ | JObject _ => true
  end.

(** [v === 'lit'] for a string literal. *)
Definition is_string (v : value) (lit : string) : bool :=
  match v with
  | JString s => String.eqb s lit
  | _ => false
  end.

(** [v == null]: the test behind [?.] and [??]. *)
Definition nullish (v : value) : bool :=
  match v with
  | JUndefined | JNull => true
  | _ => false
  end.

(** [a || b] on values. *)
Definition js_or (a b : value) : value := if truthy a then a else b.

(** The element type of a string index: the one-character string at [i]. *)
Definition char_at (s : string) (i : nat) : value :=
  match String.get i s with
  | Some c => JString (String c EmptyString)
  | None => JUndefined
  end.

(** [v.k] for the property names the component reads ([type], [name],
    [arguments], [call_id], [transcript], [response], [output], [content],
    [effect], [error], [client_secret], [value]): none of them is defined
    on a prototype, so the read is an own-property lookup on an object and
    [undefined] on an array or a primitive.  [None] is the [TypeError] of
    reading a property of [null] or [undefined]. *)
Definition property (v : value) (k : string) : option value :=
  match v with
  | JUndefined | JNull => None
  | JObject fields =>
      Some (match own_property k fields with Some x => x | None => JUndefined end)
  | _ => Some JUndefined
  end.

(** Decimal spelling of an array index, the property key of [v[i]]. *)
Definition index_key (i : nat) : string :=
  NilZero.string_of_uint (Nat.to_uint i).

(** [v[i]] for a literal index [i]. *)
Definition element (v : value) (i : nat) : option value :=
  match v with
  | JUndefined | JNull => None
  | JArray items => Some (nth i items JUndefined)
  | JString s => Some (char_at s i)
  | JObject fields =>
      Some (match own_property (index_key i) fields with
            | Some x => x
            | None => JUndefined
            end)
  | _ => Some JUndefined
  end.

(** [v?.k] and [v?.[i]] inside an optional chain: [None] is the
    short-circuit that makes the whole chain [undefined]. *)
Definition opt_property (v : value) (k : string) : option value :=
  if nullish v then None else property v k.

Definition opt_element (v : value) (i : nat) : option value :=
  if nullish v then None else element v i.

(** [ToString], as applied by a template literal and by [JSON.parse] to
    its argument.  [None] is the [TypeError] "Cannot convert object to
    primitive value": a parsed object with an own [toString] property
    hides [Object.prototype.toString] behind a value that cannot be
    called.  An array joins the strings of its elements with commas,
    [null] and [undefined] elements giving the empty string. *)
Fixpoint to_string (v : value) : option string :=
  match v with
  | JUndefined => Some "undefined"
  | JNull => Some "null"
  | JBool true => Some "true"
  | JBool false => Some "false"
  | JNumber n => Some (number_to_string n)
  | JString s => Some s
  | JObject fields =>
      match own_property "toString" fields with
      | Some _ => None
      | None => Some "[object Object]"
      end
  | JArray items =>
      (fix join (l : list value) : option string :=
         match l with
         | [] => Some ""
         | x :: rest =>
             let sx := match x with
                       | JUndefined | JNull => Some ""
                       | _ => to_string x
                       end in
             match sx, rest with
             | None, _ => None
             | Some a, [] => Some a
             | Some a, _ :: _ =>
                 match join rest with
                 | Some b => Some (String.append a (String.append "," b))
                 | None => None
                 end
             end
         end) items
  end.

(** ** The platform's JSON codec

    [JSON.parse] and [JSON.stringify] belong to the platform.  [JSON.parse]
    is a partial function on texts ([None] is its [SyntaxError]);
    [JSON.stringify] is total on the values the component hands it (parsed
    values and object literals built from them). *)

Variable JSON_parse : string -> option value.
Variable JSON_stringify : value -> string.

(** ** Exceptions, the call log and the component's world *)

Inductive exn : Type :=
  | SyntaxError
  | TypeError
  | Error (message : value)
  | Rejected (what : string).

Inductive completion (A : Type) : Type :=
  | Normal (a : A)
  | Throw (e : exn).

Arguments Normal {A} a.
Arguments Throw {A} e.

(** Every call with an effect outside the running function, in the order
    it is made. *)
Inductive call : Type :=
  | SetAIState (s : AIState)
  | SetIsActive (b : bool)
  | SetTimeRemaining (n : Z)
  | SetTranscript (lines : list string)
  | SetImageEffect (v : value)
  | Updater_throws (e : exn)
  | SetTimeout (ms : Z)
  | SetInterval (ms : Z) (id : handle)
  | ClearInterval (id : handle)
  | Send (payload : string)
  | Close_pc (pc : handle)
  | Close_dc (dc : handle)
  | Detach_audio (el : handle)
  | Console_log (label : string) (v : value)
  | Console_error (label : string) (e : exn)
  | Platform (name : string).

(** The five [useState] variables. *)
Record state : Type := mkState {
  aiState : AIState;
  timeRemaining : Z;
  isActive : bool;
  transcript : list string;
  imageEffect : value
}.

(** The four [useRef] cells; [None] is [null]. *)
Record refs : Type := mkRefs {
  pcRef : option handle;
  dataChannelRef : option handle;
  audioElementRef : option handle;
  timerRef : option handle
}.

(** The component together with what the platform holds for it: the
    intervals that are still running, the number of pending
    [setTimeout] callbacks and the log of calls. *)
Record world : Type := mkWorld {
  st : state;
  rf : refs;
  intervals : list handle;
  timeouts : nat;
  log : list call
}.

(** [useState] initial values and [useRef(null)]. *)
Definition initial_state : state :=
  mkState idle CONVERSATION_DURATION false [] (JString "none").

Definition initial_refs : refs := mkRefs None None None None.

Definition initial_world : world :=
  mkWorld initial_state initial_refs [] 0%nat [].

(** ** The monad: state passing with exceptions that keep the state *)

Definition M (A : Type) : Type := world -> completion A * world.

Definition ret {A} (a : A) : M A := fun w => (Normal a, w).

Definition bind {A B} (m : M A) (k : A -> M B) : M B :=
  fun w =>
    match m w with
    | (Normal a, w') => k a w'
    | (Throw e, w') => (Throw e, w')
    end.

Definition throw {A} (e : exn) : M A := fun w => (Throw e, w).

(** [try { body } catch (err) { handler }]. *)
Definition try_catch {A} (body : M A) (handler : exn -> M A) : M A :=
  fun w =>
    match body w with
    | (Normal a, w') => (Normal a, w')
    | (Throw e, w') => handler e w'
    end.

(** A partial platform operation, throwing [e] where it is undefined. *)
Definition lift {A} (e : exn) (o : option A) : M A :=
  match o with
  | Some a => ret a
  | None => throw e
  end.

Definition emit (c : call) : M unit :=
  fun w => (Normal tt, mkWorld (st w) (rf w) (intervals w) (timeouts w) (log w ++ [c])).

Definition read_state {A} (f : state -> A) : M A := fun w => (Normal (f (st w)), w).

Definition read_refs {A} (f : refs -> A) : M A := fun w => (Normal (f (rf w)), w).

Definition write_state (f : state -> state) : M unit :=
  fun w => (Normal tt, mkWorld (f (st w)) (rf w) (intervals w) (timeouts w) (log w)).

Definition write_refs (f : refs -> refs) : M unit :=
  fun w => (Normal tt, mkWorld (st w) (f (rf w)) (intervals w) (timeouts w) (log w)).

Definition run {A} (m : M A) (w : world) : world := snd (m w).

Definition result {A} (m : M A) (w : world) : completion A := fst (m w).

Declare Scope js_scope.
Delimit Scope js_scope with js.

Notation "x <- m ;; k" := (bind m (fun x => k))
  (at level 61, m at next level, right associativity) : js_scope.
Notation "m ;; k" := (bind m (fun _ => k))
  (at level 61, right associativity) : js_scope.

Local Open Scope js_scope.

(** ** The React setters and the platform calls the component makes *)

Definition setAIState (s : AIState) : M unit :=
  write_state (fun x => mkState s (timeRemaining x) (isActive x) (transcript x) (imageEffect x)) ;;
  emit (SetAIState s).

Definition setIsActive (b : bool) : M unit :=
  write_state (fun x => mkState (aiState x) (timeRemaining x) b (transcript x) (imageEffect x)) ;;
  emit (SetIsActive b).

Definition setTimeRemaining (n : Z) : M unit :=
  write_state (fun x => mkState (aiState x) n (isActive x) (transcript x) (imageEffect x)) ;;
  emit (SetTimeRemaining n).

Definition setTranscript (lines : list string) : M unit :=
  write_state (fun x => mkState (aiState x) (timeRemaining x) (isActive x) lines (imageEffect x)) ;;
  emit (SetTranscript lines).

Definition setImageEffect (v : value) : M unit :=
  write_state (fun x => mkState (aiState x) (timeRemaining x) (isActive x) (transcript x) v) ;;
  emit (SetImageEffect v).

(** [setTranscript(prev => [...prev, line])].  The updater is a closure
    that React runs, not the caller: the template literal that builds
    [line] is evaluated there.  When it throws ([line = None]) the call
    itself returns normally and no state changes, but the exception is
    outside any [try] of the component: React raises it again while
    rendering, which [step] turns into the unmount of the component. *)
Definition setTranscript_append (line : option string) : M unit :=
  match line with
  | Some l => prev <- read_state transcript ;; setTranscript (prev ++ [l])
  | None => emit (Updater_throws TypeError)
  end.

Definition set_pcRef (r : option handle) : M unit :=
  write_refs (fun x => mkRefs r (dataChannelRef x) (audioElementRef x) (timerRef x)).

Definition set_dataChannelRef (r : option handle) : M unit :=
  write_refs (fun x => mkRefs (pcRef x) r (audioElementRef x) (timerRef x)).

Definition set_audioElementRef (r : option handle) : M unit :=
  write_refs (fun x => mkRefs (pcRef x) (dataChannelRef x) r (timerRef x)).

Definition set_timerRef (r : option handle) : M unit :=
  write_refs (fun x => mkRefs (pcRef x) (dataChannelRef x) (audioElementRef x) r).

Definition handle_eqb (a b : handle) : bool := Nat.eqb a b.

(** [setInterval(callback, ms)] returning the identifier [id]. *)
Definition setInterval (ms : Z) (id : handle) : M unit :=
  (fun w => (Normal tt, mkWorld (st w) (rf w) (id :: intervals w) (timeouts w) (log w))) ;;
  emit (SetInterval ms id).

(** [clearInterval(id)]. *)
Definition clearInterval (id : handle) : M unit :=
  (fun w => (Normal tt,
             mkWorld (st w) (rf w)
                     (filter (fun i => negb (handle_eqb i id)) (intervals w))
                     (timeouts w) (log w))) ;;
  emit (ClearInterval id).

(** [setTimeout(() => setImageEffect('none'), ms)]: the component has one
    kind of timeout callback, so the platform only counts them. *)
Definition setTimeout (ms : Z) : M unit :=
  (fun w => (Normal tt, mkWorld (st w) (rf w) (intervals w) (S (timeouts w)) (log w))) ;;
  emit (SetTimeout ms).

(** [dc.send(payload)].  Both handlers run while the channel is open,
    where [send] returns normally; [console.log] and [console.error] do
    not throw either. *)
Definition dc_send (payload : string) : M unit := emit (Send payload).

Definition console_log (label : string) (v : value) : M unit :=
  emit (Console_log label v).

Definition console_error (label : string) (e : exn) : M unit :=
  emit (Console_error label e).

(** [v.k], [v[i]], [JSON.parse(v)] as statements that can throw. *)
Definition get (v : value) (k : string) : M value := lift TypeError (property v k).

Definition parse (v : value) : M value :=
  text <- lift TypeError (to_string v) ;;
  lift SyntaxError (JSON_parse text).

(** ** [stopConversation] *)

Definition stopConversation : M unit :=
  pc <- read_refs pcRef ;;
  match pc with
  | Some h => emit (Close_pc h) ;; set_pcRef None
  | None => ret tt
  end ;;
  dc <- read_refs dataChannelRef ;;
  match dc with
  | Some h => emit (Close_dc h) ;; set_dataChannelRef None
  | None => ret tt
  end ;;
  el <- read_refs audioElementRef ;;
  match el with
  | Some h => emit (Detach_audio h) ;; set_audioElementRef None
  | None => ret tt
  end ;;
  tm <- read_refs timerRef ;;
  match tm with
  | Some h => clearInterval h ;; set_timerRef None
  | None => ret tt
  end ;;
  setAIState idle ;;
  setIsActive false ;;
  setTimeRemaining CONVERSATION_DURATION.

(** ** The countdown: the [useEffect] on [[isActive, timeRemaining]] *)

(** The callback given to [setInterval]: the updater
    [prev => { if (prev <= 1) { stopConversation(); return 0; } return prev - 1; }]
    applied to the current [timeRemaining].  React runs the updater while
    it renders: the value it returns is applied first, and the setters
    [stopConversation] calls inside it are queued and applied after it.
    So the last tick's 0 is overwritten by [CONVERSATION_DURATION].  The
    log has the calls in the order in which the state takes them. *)
Definition timer_tick : M unit :=
  prev <- read_state timeRemaining ;;
  if prev <=? 1 then
    setTimeRemaining 0 ;;
    stopConversation
  else
    setTimeRemaining (prev - 1).

(** The effect body; [id] is what [setInterval] returns. *)
Definition timer_effect (id : handle) : M unit :=
  active <- read_state isActive ;;
  remaining <- read_state timeRemaining ;;
  if active && (0 <? remaining) then
    setInterval 1000 id ;;
    set_timerRef (Some id)
  else ret tt.

(** The effect's cleanup. *)
Definition timer_cleanup : M unit :=
  tm <- read_refs timerRef ;;
  match tm with
  | Some h => clearInterval h
  | None => ret tt
  end.

(** ** [dc.onopen] *)

Definition instructions : string :=
"You are a friendly, enthusiastic AI assistant talking to a child about the colorful hot air balloons in the image.

Your goal is to have a fun, engaging 1-minute conversation:
- Start by greeting the child warmly and asking what they see in the image
- Ask open-ended questions about the balloons, colors, and what the child imagines
- Be playful and encouraging
- Use simple, child-friendly language
- Show excitement about their answers
- Occasionally use the add_effect_to_image tool to add visual effects (sparkle, heart, or star) to the image when something exciting happens
- Keep the conversation flowing naturally

Remember: You're talking to a young child, so be patient, encouraging, and fun!".

Definition initialMessage : value :=
  JObject
    [ ("type", JString "session.update");
      ("session",
       JObject
         [ ("turn_detection", JObject [ ("type", JString "server_vad") ]);
           ("input_audio_transcription", JObject [ ("model", JString "whisper-1") ]);
           ("tools",
            JArray
              [ JObject
                  [ ("type", JString "function");
                    ("name", JString "add_effect_to_image");
                    ("description",
                     JString "Add a visual effect to the image on screen (sparkle, heart, or star effect)");
                    ("parameters",
                     JObject
                       [ ("type", JString "object");
                         ("properties",
                          JObject
                            [ ("effect",
                               JObject
                                 [ ("type", JString "string");
                                   ("enum",
                                    JArray [ JString "sparkle"; JString "heart"; JString "star" ]);
                                   ("description",
                                    JString "The type of effect to add to the image") ]) ]);
                         ("required", JArray [ JString "effect" ]) ]) ] ]);
           ("instructions", JString instructions) ]) ].

Definition conversationItem : value :=
  JObject
    [ ("type", JString "conversation.item.create");
      ("item",
       JObject
         [ ("type", JString "message");
           ("role", JString "user");
           ("content",
            JArray
              [ JObject
                  [ ("type", JString "input_text");
                    ("text",
                     JString "Hi! Please start our conversation by telling me about this picture!") ] ]) ]) ].

Definition response_create : value :=
  JObject [ ("type", JString "response.create") ].

Definition onopen : M unit :=
  emit (Console_log "Data channel opened" JUndefined) ;;
  dc_send (JSON_stringify initialMessage) ;;
  dc_send (JSON_stringify conversationItem) ;;
  dc_send (JSON_stringify response_create).

(** ** [dc.onmessage] *)

(** [msg.type === lit]. *)
Definition type_is (msg : value) (lit : string) : M bool :=
  t <- get msg "type" ;;
  ret (is_string t lit).

(** The object sent back after a tool call. *)
Definition functionOutput (call_id effect : value) : value :=
  JObject
    [ ("type", JString "conversation.item.create");
      ("item",
       JObject
         [ ("type", JString "function_call_output");
           ("call_id", call_id);
           ("output",
            JString (JSON_stringify
                       (JObject [ ("success", JBool true); ("effect", effect) ]))) ]) ].

(** [response?.output?.[0]?.content?.[0]?.transcript]: the first
    short-circuit makes the whole chain [undefined], and no link throws. *)
Definition transcript_of_response (response : value) : value :=
  match opt_property response "output" with
  | None => JUndefined
  | Some output =>
      match opt_element output 0 with
      | None => JUndefined
      | Some item =>
          match opt_property item "content" with
          | None => JUndefined
          | Some content =>
              match opt_element content 0 with
              | None => JUndefined
              | Some part =>
                  match opt_property part "transcript" with
                  | None => JUndefined
                  | Some t => t
                  end
              end
          end
      end
  end.

(** [msg.response?.output?.[0]?.content?.[0]?.transcript]. *)
Definition response_transcript (msg : value) : M value :=
  response <- get msg "response" ;;
  ret (transcript_of_response response).

(** The template literal [`prefix${v}`]; [None] when [ToString] throws. *)
Definition template (prefix : string) (v : value) : option string :=
  match to_string v with
  | Some s => Some (String.append prefix s)
  | None => None
  end.

Notation "'ifM' c 'then' a 'else' b" :=
  (bind c (fun t => if t then a else b))
  (at level 10, c at level 200, a at level 200, b at level 200) : js_scope.

Definition onmessage_body (data : string) : M unit :=
  msg <- parse (JString data) ;;
  t <- get msg "type" ;;
  console_log "Message:" t ;;
  ifM type_is msg "session.created" then
    setAIState listening
  else ifM type_is msg "response.audio.delta" then
    setAIState speaking
  else ifM type_is msg "response.audio.done" then
    setAIState listening
  else ifM type_is msg "input_audio_buffer.speech_started" then
    setAIState listening
  else ifM type_is msg "conversation.item.input_audio_transcription.completed" then
    said <- get msg "transcript" ;;
    setTranscript_append (template "You: " said)
  else ifM type_is msg "response.function_call_arguments.done" then
    text <- get msg "arguments" ;;
    args <- parse text ;;
    name <- get msg "name" ;;
    (if is_string name "add_effect_to_image" then
       effect <- get args "effect" ;;
       if truthy effect then
         effect <- get args "effect" ;;
         setImageEffect effect ;;
         setTimeout 2000
       else ret tt
     else ret tt) ;;
    call_id <- get msg "call_id" ;;
    effect <- get args "effect" ;;
    dc_send (JSON_stringify (functionOutput call_id effect)) ;;
    dc_send (JSON_stringify response_create)
  else ifM type_is msg "response.done" then
    spoken <- response_transcript msg ;;
    if truthy spoken then
      setTranscript_append (template "AI: " spoken)
    else ret tt
  else ret tt.

Definition onmessage (data : string) : M unit :=
  try_catch (onmessage_body data)
            (fun err => console_error "Error processing message:" err).

(** The callback of [setTimeout] in the tool-call branch. *)
Definition image_timeout : M unit := setImageEffect (JString "none").

(** ** [startConversation] *)

(** What the outside world answers while the conversation is being set
    up.  [None] is a rejected promise or a constructor that throws. *)
Record http_response : Type := mkResponse {
  ok : bool;
  json : option value
}.

Record start_env : Type := mkEnv {
  session_fetch : option http_response;
  peer_connection : option handle;
  audio_element : handle;
  user_media : option (list handle);
  data_channel : option handle;
  offer_sdp : option string;
  local_description : bool;
  sdp_fetch : option (option string);
  remote_description : bool
}.

(** A platform call: it is logged, then it yields its answer or throws. *)
Definition platform {A} (name : string) (answer : option A) : M A :=
  emit (Platform name) ;;
  lift (Rejected name) answer.

Definition accepted (b : bool) : option unit := if b then Some tt else None.

(** The body of the [try] block.  Assigning the handlers ([pc.ontrack],
    [dc.onopen], [dc.onmessage]) changes nothing the component can see:
    the two data-channel handlers are the events [Channel_opens] and
    [Channel_message] below.  The arguments of the two requests are
    evaluated (reading [data.client_secret.value] can throw) but do not
    choose what the platform answers, which [env] does. *)
Definition startConversation_body (env : start_env) : M unit :=
  setAIState connecting ;;
  setIsActive true ;;
  setTimeRemaining CONVERSATION_DURATION ;;
  setTranscript [] ;;
  response <- platform "fetch" (session_fetch env) ;;
  data <- platform "response.json" (json response) ;;
  (if negb (ok response) then
     message <- get data "error" ;;
     throw (Error (js_or message (JString "Failed to create session")))
   else ret tt) ;;
  pc <- platform "new RTCPeerConnection" (peer_connection env) ;;
  set_pcRef (Some pc) ;;
  emit (Platform "document.createElement") ;;
  set_audioElementRef (Some (audio_element env)) ;;
  ms <- platform "getUserMedia" (user_media env) ;;
  track <- lift TypeError (hd_error ms) ;;
  emit (Platform "pc.addTrack") ;;
  dc <- platform "pc.createDataChannel" (data_channel env) ;;
  set_dataChannelRef (Some dc) ;;
  offer <- platform "pc.createOffer" (offer_sdp env) ;;
  platform "pc.setLocalDescription" (accepted (local_description env)) ;;
  secret <- get data "client_secret" ;;
  url <- get secret "value" ;;
  secret <- get data "client_secret" ;;
  token <- get secret "value" ;;
  bearer <- lift TypeError (template "Bearer " token) ;;
  sdpResponse <- platform "fetch" (sdp_fetch env) ;;
  sdp <- platform "sdpResponse.text" sdpResponse ;;
  platform "pc.setRemoteDescription" (accepted (remote_description env)).

Definition startConversation (env : start_env) : M unit :=
  try_catch (startConversation_body env)
            (fun error =>
               console_error "Error starting conversation:" error ;;
               setAIState idle ;;
               setIsActive false).

(** ** Events

    What can happen to the component: the two buttons, the interval
    firing, React running the timer effect (cleanup, then body), the data
    channel opening or delivering a message, and the image timeout.
    [Click_start env] is a start that runs to its end, or to its catch,
    before the next event: what happens between its awaits is not
    interleaved with it. *)

Inductive event : Type :=
  | Click_start (env : start_env)
  | Click_stop
  | Interval_fires
  | Effect_runs (id : handle)
  | Channel_opens
  | Channel_message (data : string)
  | Timeout_fires.

Definition handler (ev : event) : M unit :=
  match ev with
  | Click_start env => startConversation env
  | Click_stop => stopConversation
  | Interval_fires =>
      fun w => match intervals w with
               | [] => (Normal tt, w)
               | _ :: _ => timer_tick w
               end
  | Effect_runs id => timer_cleanup ;; timer_effect id
  | Channel_opens => onopen
  | Channel_message data => onmessage data
  | Timeout_fires =>
      fun w => match timeouts w with
               | O => (Normal tt, w)
               | S n =>
                   image_timeout
                     (mkWorld (st w) (rf w) (intervals w) n (log w))
               end
  end.

(** What the handler of an event does. *)
Definition dispatch (w : world) (ev : event) : world := run (handler ev) w.

(** An updater that throws is fatal.  React raises the error again while
    it renders; the component has no error boundary, so the tree is
    unmounted: the timer effect's cleanup runs, and from then on there is
    no button to click and no effect to run.  The callbacks the platform
    holds (interval, data channel, timeout) are not React's to remove and
    still run; what they write to [st] is no longer on any screen. *)
Definition is_updater_throw (c : call) : bool :=
  match c with
  | Updater_throws _ => true
  | _ => false
  end.

Definition crashed (w : world) : bool := existsb is_updater_throw (log w).

Definition unmount : M unit := timer_cleanup.

Definition step (w : world) (ev : event) : world :=
  if crashed w then
    match ev with
    | Click_start _ | Click_stop | Effect_runs _ => w
    | _ => dispatch w ev
    end
  else
    let w' := dispatch w ev in
    if crashed w' then run unmount w' else w'.

Definition steps (w : world) (evs : list event) : world := fold_left step evs w.

(** A world the component can be in: [initial_world] after some events. *)
Definition reachable (w : world) : Prop :=
  exists evs, w = steps initial_world evs.

(** * Properties *)

(** ** Unfolding the monad *)

(** Runs the monad's plumbing and the record projections, and nothing
    else: the platform's answers and the tests on values stay as they
    are, to be rewritten with the hypotheses at hand. *)
Ltac js :=
  cbv beta iota delta
    [run result setTranscript_append setAIState setIsActive
     setTimeRemaining setTranscript setImageEffect set_pcRef
     set_dataChannelRef set_audioElementRef set_timerRef setInterval
     clearInterval setTimeout dc_send console_log console_error get
     parse platform type_is response_transcript lift emit read_state read_refs
     write_state write_refs try_catch throw bind ret
     st rf intervals timeouts log aiState timeRemaining isActive
     transcript imageEffect pcRef dataChannelRef audioElementRef
     timerRef fst snd negb].

(** ** [stopConversation] *)

Lemma stopConversation_normal (w : world) :
  result stopConversation w = Normal tt.
Proof.
  unfold stopConversation. destruct w as [s [[p|] [d|] [a|] [t|]] i n l]; reflexivity.
Qed.

Lemma stopConversation_state (w : world) :
  st (run stopConversation w) =
  mkState idle CONVERSATION_DURATION false (transcript (st w)) (imageEffect (st w)).
Proof.
  unfold stopConversation. destruct w as [s [[p|] [d|] [a|] [t|]] i n l]; reflexivity.
Qed.

Lemma stopConversation_refs (w : world) :
  rf (run stopConversation w) = initial_refs.
Proof.
  unfold stopConversation. destruct w as [s [[p|] [d|] [a|] [t|]] i n l]; reflexivity.
Qed.

Lemma stopConversation_timeouts (w : world) :
  timeouts (run stopConversation w) = timeouts w.
Proof.
  unfold stopConversation. destruct w as [s [[p|] [d|] [a|] [t|]] i n l]; reflexivity.
Qed.

Lemma stopConversation_intervals (w : world) :
  intervals (run stopConversation w) =
  match timerRef (rf w) with
  | Some h => filter (fun i => negb (handle_eqb i h)) (intervals w)
  | None => intervals w
  end.
Proof.
  unfold stopConversation. destruct w as [s [[p|] [d|] [a|] [t|]] i n l]; reflexivity.
Qed.

(** The calls of a second [stopConversation]: the three setters only. *)
Lemma stopConversation_null_refs (w : world) :
  rf w = initial_refs ->
  run stopConversation w =
  mkWorld (mkState idle CONVERSATION_DURATION false (transcript (st w)) (imageEffect (st w)))
          initial_refs (intervals w) (timeouts w)
          (log w ++ [SetAIState idle] ++ [SetIsActive false]
                 ++ [SetTimeRemaining CONVERSATION_DURATION]).
Proof.
  destruct w as [s r i n l]. cbn [rf]. intros ->.
  unfold stopConversation, initial_refs. js. rewrite <- !app_assoc. reflexivity.
Qed.

(** C8. [stopConversation] is idempotent: after one call the four refs are
    [null], [aiState] is ['idle'], [isActive] is [false] and
    [timeRemaining] is [CONVERSATION_DURATION]; a second call from there
    leaves the state, the refs, the running intervals and the pending
    timeouts as they are, closes nothing, and only repeats the three
    setter calls with the values already held. *)
Theorem stopConversation_idempotent (w : world) :
  let w1 := run stopConversation w in
  let w2 := run stopConversation w1 in
  (pcRef (rf w1) = None /\ dataChannelRef (rf w1) = None /\
   audioElementRef (rf w1) = None /\ timerRef (rf w1) = None) /\
  aiState (st w1) = idle /\
  isActive (st w1) = false /\
  timeRemaining (st w1) = CONVERSATION_DURATION /\
  st w2 = st w1 /\ rf w2 = rf w1 /\
  intervals w2 = intervals w1 /\ timeouts w2 = timeouts w1 /\
  log w2 = log w1 ++ [SetAIState idle; SetIsActive false;
                      SetTimeRemaining CONVERSATION_DURATION].
Proof.
  intros w1 w2.
  assert (Hr : rf w1 = initial_refs) by apply stopConversation_refs.
  assert (Hs := stopConversation_state w). fold w1 in Hs.
  subst w2. rewrite (stopConversation_null_refs w1 Hr).
  cbn [st rf intervals timeouts log]. rewrite Hr, Hs. cbn.
  repeat split; reflexivity.
Qed.

(** ** [startConversation] *)

Lemma startConversation_normal (env : start_env) (w : world) :
  result (startConversation env) w = Normal tt.
Proof.
  unfold startConversation, result, try_catch.
  destruct (startConversation_body env w) as [[[]|e] w1]; reflexivity.
Qed.

Lemma startConversation_caught (env : start_env) (w w1 : world) (e : exn) :
  startConversation_body env w = (Throw e, w1) ->
  run (startConversation env) w =
  mkWorld (mkState idle (timeRemaining (st w1)) false
                   (transcript (st w1)) (imageEffect (st w1)))
          (rf w1) (intervals w1) (timeouts w1)
          (log w1 ++ [Console_error "Error starting conversation:" e;
                      SetAIState idle; SetIsActive false]).
Proof.
  intros H. unfold startConversation, run, try_catch. rewrite H.
  js. rewrite <- !app_assoc. reflexivity.
Qed.

Lemma startConversation_not_ok (env : start_env) (w : world)
      (r : http_response) (data message : value) :
  session_fetch env = Some r ->
  json r = Some data ->
  ok r = false ->
  property data "error" = Some message ->
  exists w1,
    startConversation_body env w =
    (Throw (Error (js_or message (JString "Failed to create session"))), w1).
Proof.
  intros Hf Hj Hok Hm. unfold startConversation_body.
  js. rewrite Hf. js. rewrite Hj. js. rewrite Hok. js. rewrite Hm. js.
  eexists. reflexivity.
Qed.

(** C3. No error escapes [startConversation]; when a step of its body
    throws, the error is logged and the component ends with [aiState]
    ['idle'] and [isActive] [false]; a session response that is not [ok]
    makes the body throw an [Error] carrying [data.error] or the default
    message. *)
Theorem startConversation_resets_on_error (env : start_env) (w : world) :
  result (startConversation env) w = Normal tt /\
  (forall e w1,
      startConversation_body env w = (Throw e, w1) ->
      aiState (st (run (startConversation env) w)) = idle /\
      isActive (st (run (startConversation env) w)) = false /\
      log (run (startConversation env) w) =
      log w1 ++ [Console_error "Error starting conversation:" e;
                 SetAIState idle; SetIsActive false]) /\
  (forall r data message,
      session_fetch env = Some r ->
      json r = Some data ->
      ok r = false ->
      property data "error" = Some message ->
      exists w1,
        startConversation_body env w =
        (Throw (Error (js_or message (JString "Failed to create session"))), w1)).
Proof.
  split; [apply startConversation_normal|]. split.
  - intros e w1 H. rewrite (startConversation_caught env w w1 e H).
    repeat split; reflexivity.
  - intros r data message. apply startConversation_not_ok.
Qed.

(** ** [dc.onmessage]: the dispatch on [msg.type] *)

(** The message types the handler compares [msg.type] with, in the order
    of its [if] chain. *)
Definition recognized_types : list string :=
  [ "session.created";
    "response.audio.delta";
    "response.audio.done";
    "input_audio_buffer.speech_started";
    "conversation.item.input_audio_transcription.completed";
    "response.function_call_arguments.done";
    "response.done" ].

(** A message of type [lit] that carries a spoken transcript and no other
    field. *)
Definition sample_message (lit : string) : value :=
  JObject
    [ ("type", JString lit);
      ("response",
       JObject
         [ ("output",
            JArray
              [ JObject
                  [ ("content",
                     JArray [ JObject [ ("transcript", JString "Hello") ] ]) ] ]) ]) ].

(** The world after a call that only logged [calls]. *)
Definition logged (w : world) (calls : list call) : world :=
  mkWorld (st w) (rf w) (intervals w) (timeouts w) (log w ++ calls).

Lemma is_string_true (t : value) (lit : string) :
  is_string t lit = true <-> t = JString lit.
Proof.
  destruct t; cbn; try (split; [discriminate | intros H; discriminate H]).
  rewrite String.eqb_eq. split; [intros -> | intros [= ->]]; reflexivity.
Qed.

Lemma is_string_false (t : value) (lit : string) :
  t <> JString lit -> is_string t lit = false.
Proof.
  intros H. destruct (is_string t lit) eqn:E; [|reflexivity].
  apply is_string_true in E. contradiction.
Qed.

Lemma onmessage_unrecognized (data : string) (w : world) (msg t : value) :
  JSON_parse data = Some msg ->
  property msg "type" = Some t ->
  (forall lit, In lit recognized_types -> t <> JString lit) ->
  onmessage data w = (Normal tt, logged w [Console_log "Message:" t]).
Proof.
  intros Hp Ht Hout.
  assert (H : forall lit, In lit recognized_types -> is_string t lit = false)
    by (intros lit Hin; apply is_string_false, Hout, Hin).
  unfold onmessage, onmessage_body, logged. js. cbn [to_string].
  rewrite Hp. js. rewrite Ht. js.
  rewrite !H by (cbn; tauto). reflexivity.
Qed.


(** ** [dc.onmessage] on every input *)

(** Case analysis on whatever the evaluation is stuck on. *)
Ltac destruct_stuck t :=
  match t with
  | context [match ?y with _ => _ end] => destruct_stuck y
  | _ => destruct t eqn:?
  end.

Ltac js_cases :=
  repeat (js; cbn [to_string];
          match goal with
          | |- context [match ?x with _ => _ end] => destruct_stuck x
          end);
  js.

(** What a message can never touch: the refs, the running intervals, the
    countdown and the activity flag; nor does the handler throw. *)
Lemma onmessage_frame (data : string) (w : world) :
  result (onmessage data) w = Normal tt /\
  rf (run (onmessage data) w) = rf w /\
  intervals (run (onmessage data) w) = intervals w /\
  timeRemaining (st (run (onmessage data) w)) = timeRemaining (st w) /\
  isActive (st (run (onmessage data) w)) = isActive (st w).
Proof.
  destruct w as [[a t i tr im] r iv n l].
  unfold onmessage, onmessage_body.
  js_cases; repeat split; reflexivity.
Qed.


Lemma template_prefix (prefix : string) (v : value) (line : string) :
  template prefix v = Some line ->
  exists s, to_string v = Some s /\ line = String.append prefix s.
Proof.
  unfold template. destruct (to_string v) as [s|]; [|discriminate].
  intros [= <-]. exists s. split; reflexivity.
Qed.

(** What a message does to the transcript: nothing, or one line added at
    the end, ["You: ..."] for a completed input transcription and
    ["AI: ..."] for a finished response with a transcript. *)
Lemma onmessage_transcript (data : string) (w : world) :
  transcript (st (run (onmessage data) w)) = transcript (st w) \/
  exists msg s,
    JSON_parse data = Some msg /\
    ((property msg "type" =
        Some (JString "conversation.item.input_audio_transcription.completed") /\
      transcript (st (run (onmessage data) w)) =
        transcript (st w) ++ [String.append "You: " s]) \/
     (property msg "type" = Some (JString "response.done") /\
      transcript (st (run (onmessage data) w)) =
        transcript (st w) ++ [String.append "AI: " s])).
Proof.
  destruct w as [[a t i tr im] r iv n l].
  unfold onmessage, onmessage_body.
  js_cases; try (left; reflexivity); right;
    repeat match goal with
           | H : is_string _ _ = true |- _ => apply is_string_true in H; subst
           | H : template _ _ = Some _ |- _ =>
               apply template_prefix in H; destruct H as (? & _ & ->)
           end;
    eexists; eexists; (split; [reflexivity|]);
    first [ left; split; [assumption | reflexivity]
          | right; split; [assumption | reflexivity] ].
Qed.

(** A value whose properties can be read at all never throws on a read. *)
Lemma property_defined (v x : value) (k k' : string) :
  property v k = Some x -> property v k' <> None.
Proof. destruct v; cbn; intros H; discriminate. Qed.

Ltac property_absurd :=
  match goal with
  | H1 : property ?v _ = Some _, H2 : property ?v _ = None |- _ =>
      exfalso; exact (property_defined _ _ _ _ H1 H2)
  end.

(** An exception inside the handler is caught, and it was thrown before
    the handler changed anything: only the console has been written to. *)
Lemma onmessage_caught (data : string) (w w1 : world) (e : exn) :
  onmessage_body data w = (Throw e, w1) ->
  (w1 = w \/ exists t, w1 = logged w [Console_log "Message:" t]) /\
  onmessage data w =
  (Normal tt, logged w1 [Console_error "Error processing message:" e]).
Proof.
  destruct w as [[a t i tr im] r iv n l].
  unfold onmessage. js. intros H. rewrite H. split; [|reflexivity].
  revert H. unfold onmessage_body, logged.
  js_cases; try property_absurd; intros [= <- <-];
    try (left; reflexivity); right; eexists; reflexivity.
Qed.

Lemma onmessage_not_json (data : string) (w : world) :
  JSON_parse data = None ->
  onmessage_body data w = (Throw SyntaxError, w).
Proof.
  intros H. unfold onmessage_body. js. cbn [to_string]. rewrite H. js.
  reflexivity.
Qed.

Lemma onmessage_null (data : string) (w : world) :
  JSON_parse data = Some JNull ->
  onmessage_body data w = (Throw TypeError, w).
Proof.
  intros H. unfold onmessage_body. js. cbn [to_string]. rewrite H. js.
  reflexivity.
Qed.

Lemma onmessage_bad_arguments (data : string) (w : world) (msg raw : value)
      (text : string) :
  JSON_parse data = Some msg ->
  property msg "type" = Some (JString "response.function_call_arguments.done") ->
  property msg "arguments" = Some raw ->
  to_string raw = Some text ->
  JSON_parse text = None ->
  onmessage_body data w =
  (Throw SyntaxError,
   logged w [Console_log "Message:" (JString "response.function_call_arguments.done")]).
Proof.
  intros Hp Ht Ha Hs Hn. unfold onmessage_body, logged. js. cbn [to_string].
  rewrite Hp. js. rewrite Ht. js. cbn. rewrite Ha. js. rewrite Hs. js.
  rewrite Hn. js. reflexivity.
Qed.


(** ** [dc.onmessage]: the tool-call branch *)

Lemma onmessage_function_call (data : string) (w : world)
      (msg raw args name call_id effect : value) (text : string) :
  JSON_parse data = Some msg ->
  property msg "type" = Some (JString "response.function_call_arguments.done") ->
  property msg "arguments" = Some raw ->
  to_string raw = Some text ->
  JSON_parse text = Some args ->
  property msg "name" = Some name ->
  property msg "call_id" = Some call_id ->
  property args "effect" = Some effect ->
  onmessage data w =
  (Normal tt,
   if is_string name "add_effect_to_image" && truthy effect then
     mkWorld (mkState (aiState (st w)) (timeRemaining (st w)) (isActive (st w))
                      (transcript (st w)) effect)
             (rf w) (intervals w) (S (timeouts w))
             (log w ++
              [ Console_log "Message:" (JString "response.function_call_arguments.done");
                SetImageEffect effect;
                SetTimeout 2000;
                Send (JSON_stringify (functionOutput call_id effect));
                Send (JSON_stringify response_create) ])
   else
     logged w
       [ Console_log "Message:" (JString "response.function_call_arguments.done");
         Send (JSON_stringify (functionOutput call_id effect));
         Send (JSON_stringify response_create) ]).
Proof.
  intros Hp Ht Ha Hs Hj Hn Hc He.
  destruct w as [[a t i tr im] r iv n l].
  unfold onmessage, onmessage_body, logged. js. cbn [to_string].
  rewrite Hp. js. rewrite Ht. js. cbn. rewrite Ha. js. rewrite Hs. js.
  rewrite Hj. js. rewrite Hn. js.
  destruct (is_string name "add_effect_to_image"); js.
  - rewrite He. js. destruct (truthy effect); js.
    + rewrite Hc. js. cbn [andb]. rewrite <- !app_assoc. reflexivity.
    + rewrite Hc. js. cbn [andb]. rewrite <- !app_assoc. reflexivity.
  - rewrite Hc. js. rewrite He. js.
    cbn [andb]. rewrite <- !app_assoc. reflexivity.
Qed.

(** Arguments that parse to [null]: reading [args.effect] throws before
    anything is sent. *)
Lemma onmessage_null_arguments (data : string) (w : world)
      (msg raw : value) (text : string) :
  JSON_parse data = Some msg ->
  property msg "type" = Some (JString "response.function_call_arguments.done") ->
  property msg "arguments" = Some raw ->
  to_string raw = Some text ->
  JSON_parse text = Some JNull ->
  onmessage data w =
  (Normal tt,
   logged w
     [ Console_log "Message:" (JString "response.function_call_arguments.done");
       Console_error "Error processing message:" TypeError ]).
Proof.
  intros Hp Ht Ha Hs Hj.
  destruct (property msg "name") as [name|] eqn:Hn;
    [| exfalso; exact (property_defined _ _ _ _ Ht Hn)].
  destruct (property msg "call_id") as [call_id|] eqn:Hc;
    [| exfalso; exact (property_defined _ _ _ _ Ht Hc)].
  destruct w as [[a t i tr im] r iv n l].
  unfold onmessage, onmessage_body, logged. js. cbn [to_string].
  rewrite Hp. js. rewrite Ht. js. cbn. rewrite Ha. js. rewrite Hs. js.
  rewrite Hj. js. rewrite Hn. js.
  destruct (is_string name "add_effect_to_image"); js; cbn [property]; js.
  - rewrite <- !app_assoc. reflexivity.
  - rewrite Hc. js. rewrite <- !app_assoc. reflexivity.
Qed.

(** A tool call whose arguments cannot be used: they do not convert to a
    string, or the string is not JSON, or it is JSON for [null] (reading
    [args.effect] throws).  The exception is caught before anything is
    set or sent. *)
Lemma onmessage_failed_arguments (data : string) (w : world) (msg raw : value) :
  JSON_parse data = Some msg ->
  property msg "type" = Some (JString "response.function_call_arguments.done") ->
  property msg "arguments" = Some raw ->
  match to_string raw with
  | None => True
  | Some text =>
      match JSON_parse text with
      | None => True
      | Some args => property args "effect" = None
      end
  end ->
  exists e,
    onmessage data w =
    (Normal tt,
     logged w
       [ Console_log "Message:" (JString "response.function_call_arguments.done");
         Console_error "Error processing message:" e ]).
Proof.
  intros Hp Ht Ha Hbad.
  destruct (property msg "name") as [name|] eqn:Hn;
    [| exfalso; exact (property_defined _ _ _ _ Ht Hn)].
  destruct (property msg "call_id") as [call_id|] eqn:Hc;
    [| exfalso; exact (property_defined _ _ _ _ Ht Hc)].
  destruct w as [[a t i tr im] r iv n l].
  unfold onmessage, onmessage_body, logged. js. cbn [to_string].
  rewrite Hp. js. rewrite Ht. js. cbn. rewrite Ha. js.
  destruct (to_string raw) as [text|]; js;
    [| eexists; rewrite <- !app_assoc; reflexivity].
  destruct (JSON_parse text) as [args|]; js;
    [| eexists; rewrite <- !app_assoc; reflexivity].
  rewrite Hn. js.
  destruct (is_string name "add_effect_to_image"); js; rewrite ?Hc; js;
    rewrite Hbad; js; eexists; rewrite <- !app_assoc; reflexivity.
Qed.

(** ** Counting what a call does *)

(** The calls a computation adds to the log. *)
Definition calls_of {A} (m : M A) (w : world) : list call :=
  skipn (length (log w)) (log (run m w)).

Definition is_console (c : call) : bool :=
  match c with
  | Console_log _ _ | Console_error _ _ => true
  | _ => false
  end.

(** The calls that are not console output. *)
Definition side_effects (calls : list call) : list call :=
  filter (fun c => negb (is_console c)) calls.

Definition is_send (c : call) : bool :=
  match c with
  | Send _ => true
  | _ => false
  end.

Lemma calls_of_logged {A} (m : M A) (w : world) (calls : list call) :
  log (run m w) = log w ++ calls -> calls_of m w = calls.
Proof.
  intros H. unfold calls_of. rewrite H.
  rewrite skipn_app, skipn_all, Nat.sub_diag. reflexivity.
Qed.


(** ** [dc.onmessage]: the other branches *)

(** The state a message type announces, for the four types that only set
    [aiState]. *)
Definition state_events : list (string * AIState) :=
  [ ("session.created", listening);
    ("response.audio.delta", speaking);
    ("response.audio.done", listening);
    ("input_audio_buffer.speech_started", listening) ].

Lemma onmessage_state_event (data : string) (w : world) (msg : value)
      (lit : string) (s : AIState) :
  In (lit, s) state_events ->
  JSON_parse data = Some msg ->
  property msg "type" = Some (JString lit) ->
  onmessage data w =
  (Normal tt,
   mkWorld (mkState s (timeRemaining (st w)) (isActive (st w))
                    (transcript (st w)) (imageEffect (st w)))
           (rf w) (intervals w) (timeouts w)
           (log w ++ [Console_log "Message:" (JString lit); SetAIState s])).
Proof.
  intros Hin Hp Ht. destruct w as [[a t i tr im] r iv n l].
  unfold onmessage, onmessage_body. js. cbn [to_string]. rewrite Hp. js.
  rewrite Ht. js.
  cbn in Hin. destruct Hin as [E|[E|[E|[E|[]]]]]; inversion E; subst;
    cbn; rewrite <- !app_assoc; reflexivity.
Qed.

(** The world after [setTranscript(prev => [...prev, line])], [calls]
    having been logged before. *)
Definition appended (w : world) (calls : list call) (line : option string) : world :=
  match line with
  | Some l =>
      mkWorld (mkState (aiState (st w)) (timeRemaining (st w)) (isActive (st w))
                       (transcript (st w) ++ [l]) (imageEffect (st w)))
              (rf w) (intervals w) (timeouts w)
              (log w ++ calls ++ [SetTranscript (transcript (st w) ++ [l])])
  | None => logged w (calls ++ [Updater_throws TypeError])
  end.

Lemma onmessage_user_transcript (data : string) (w : world) (msg said : value) :
  JSON_parse data = Some msg ->
  property msg "type" =
    Some (JString "conversation.item.input_audio_transcription.completed") ->
  property msg "transcript" = Some said ->
  onmessage data w =
  (Normal tt,
   appended w
     [Console_log "Message:"
        (JString "conversation.item.input_audio_transcription.completed")]
     (template "You: " said)).
Proof.
  intros Hp Ht Hs. destruct w as [[a t i tr im] r iv n l].
  unfold onmessage, onmessage_body, appended, logged. js. cbn [to_string].
  rewrite Hp. js. rewrite Ht. js. cbn. rewrite Hs. js.
  destruct (template "You: " said); js; rewrite <- !app_assoc; reflexivity.
Qed.

Lemma onmessage_response_done (data : string) (w : world) (msg response : value) :
  JSON_parse data = Some msg ->
  property msg "type" = Some (JString "response.done") ->
  property msg "response" = Some response ->
  onmessage data w =
  (Normal tt,
   if truthy (transcript_of_response response) then
     appended w [Console_log "Message:" (JString "response.done")]
              (template "AI: " (transcript_of_response response))
   else logged w [Console_log "Message:" (JString "response.done")]).
Proof.
  intros Hp Ht Hr. destruct w as [[a t i tr im] r iv n l].
  unfold onmessage, onmessage_body, appended, logged. js. cbn [to_string].
  rewrite Hp. js. rewrite Ht. js. cbn. rewrite Hr. js.
  destruct (truthy (transcript_of_response response)); js; [|reflexivity].
  destruct (template "AI: " (transcript_of_response response)); js;
    rewrite <- !app_assoc; reflexivity.
Qed.

Lemma property_total (v x : value) (k k' : string) :
  property v k = Some x -> exists y, property v k' = Some y.
Proof.
  intros H. destruct (property v k') as [y|] eqn:E; [exists y; reflexivity|].
  exfalso. exact (property_defined _ _ _ _ H E).
Qed.

Ltac literal_tests := cbn [is_string String.eqb Ascii.eqb Bool.eqb].

Ltac count_calls :=
  cbn [log]; rewrite <- ?app_assoc;
  rewrite skipn_app, skipn_all, Nat.sub_diag; cbn.

(** * The claims about [dc.onmessage] and [dc.onopen] *)

(** C1. A ['response.function_call_arguments.done'] message that names
    ['add_effect_to_image'] and whose parsed arguments contain an effect
    (the handler's test: [args.effect] is truthy) makes the handler return
    normally, set [imageEffect] to that effect, and send, in this order, a
    ['conversation.item.create'] whose item is a ['function_call_output']
    with the message's [call_id] and the output
    [JSON.stringify({success: true, effect})], then a ['response.create']. *)
Theorem tool_call_add_effect (data : string) (w : world)
        (msg raw args call_id effect : value) (text : string) :
  JSON_parse data = Some msg ->
  property msg "type" = Some (JString "response.function_call_arguments.done") ->
  property msg "name" = Some (JString "add_effect_to_image") ->
  property msg "call_id" = Some call_id ->
  property msg "arguments" = Some raw ->
  to_string raw = Some text ->
  JSON_parse text = Some args ->
  property args "effect" = Some effect ->
  truthy effect = true ->
  result (onmessage data) w = Normal tt /\
  imageEffect (st (run (onmessage data) w)) = effect /\
  calls_of (onmessage data) w =
    [ Console_log "Message:" (JString "response.function_call_arguments.done");
      SetImageEffect effect;
      SetTimeout 2000;
      Send (JSON_stringify (functionOutput call_id effect));
      Send (JSON_stringify response_create) ] /\
  functionOutput call_id effect =
    JObject
      [ ("type", JString "conversation.item.create");
        ("item",
         JObject
           [ ("type", JString "function_call_output");
             ("call_id", call_id);
             ("output",
              JString (JSON_stringify
                         (JObject [ ("success", JBool true);
                                    ("effect", effect) ]))) ]) ] /\
  response_create = JObject [ ("type", JString "response.create") ].
Proof.
  intros Hp Ht Hn Hc Ha Hs Hj He Htruthy.
  pose proof (onmessage_function_call data w msg raw args _ call_id effect text
                Hp Ht Ha Hs Hj Hn Hc He) as H.
  rewrite Htruthy in H. cbn [is_string String.eqb Ascii.eqb Bool.eqb andb] in H.
  split; [unfold result; rewrite H; reflexivity|].
  split; [unfold run; rewrite H; reflexivity|].
  split; [|split; reflexivity].
  apply calls_of_logged. unfold run. rewrite H. reflexivity.
Qed.


(** The claim "one side effect per matched branch", as stated: for a
    message of a recognized type the handler makes exactly one call that
    is not console output. *)
Definition one_side_effect_per_branch : Prop :=
  forall data w msg lit,
    JSON_parse data = Some msg ->
    property msg "type" = Some (JString lit) ->
    In lit recognized_types ->
    length (side_effects (calls_of (onmessage data) w)) = 1%nat.

(** C4, as amended.  The dispatch is a flat chain of comparisons of
    [msg.type] with string literals.  Console output aside, the calls a
    message makes are: for each of the four state events, [setAIState]
    and nothing else; for the input transcription, [setTranscript] and
    nothing else; for ['response.done'], [setTranscript] when the
    response has a transcript and nothing otherwise; for the tool call,
    the two sends (the acknowledgment, then ['response.create']),
    preceded by [setImageEffect] and [setTimeout] when the name is
    ['add_effect_to_image'] and [args.effect] is truthy, and nothing at
    all when the arguments do not convert to a string, are not JSON or
    parse to [null]; for any other type, nothing.  ([Updater_throws]
    stands for the call of [setTranscript] whose updater cannot build its
    line.) *)
Theorem side_effects_per_branch (data : string) (w : world) (msg : value)
        (lit : string) :
  JSON_parse data = Some msg ->
  property msg "type" = Some (JString lit) ->
  let effects := side_effects (calls_of (onmessage data) w) in
  (forall s, In (lit, s) state_events -> effects = [SetAIState s]) /\
  (lit = "conversation.item.input_audio_transcription.completed" ->
   forall said,
     property msg "transcript" = Some said ->
     effects =
     [ match template "You: " said with
       | Some line => SetTranscript (transcript (st w) ++ [line])
       | None => Updater_throws TypeError
       end ]) /\
  (lit = "response.done" ->
   forall response,
     property msg "response" = Some response ->
     effects =
     if truthy (transcript_of_response response) then
       [ match template "AI: " (transcript_of_response response) with
         | Some line => SetTranscript (transcript (st w) ++ [line])
         | None => Updater_throws TypeError
         end ]
     else []) /\
  (lit = "response.function_call_arguments.done" ->
   forall raw name call_id,
     property msg "arguments" = Some raw ->
     property msg "name" = Some name ->
     property msg "call_id" = Some call_id ->
     (to_string raw = None -> effects = []) /\
     (forall text,
         to_string raw = Some text -> JSON_parse text = None ->
         effects = []) /\
     (forall text args,
         to_string raw = Some text -> JSON_parse text = Some args ->
         property args "effect" = None ->
         effects = []) /\
     (forall text args effect,
         to_string raw = Some text -> JSON_parse text = Some args ->
         property args "effect" = Some effect ->
         effects =
         (if is_string name "add_effect_to_image" && truthy effect
          then [SetImageEffect effect; SetTimeout 2000] else []) ++
         [ Send (JSON_stringify (functionOutput call_id effect));
           Send (JSON_stringify response_create) ])) /\
  (~ In lit recognized_types -> effects = []).
Proof.
  intros Hp Ht effects. subst effects.
  split; [|split; [|split; [|split]]].
  - intros s Hs.
    rewrite (calls_of_logged _ w
               [Console_log "Message:" (JString lit); SetAIState s]);
      [reflexivity|].
    unfold run. rewrite (onmessage_state_event data w msg lit s Hs Hp Ht).
    reflexivity.
  - intros -> said Hsaid.
    pose proof (onmessage_user_transcript data w msg said Hp Ht Hsaid) as H.
    rewrite (calls_of_logged _ w
               [ Console_log "Message:"
                   (JString "conversation.item.input_audio_transcription.completed");
                 match template "You: " said with
                 | Some line => SetTranscript (transcript (st w) ++ [line])
                 | None => Updater_throws TypeError
                 end ]).
    + destruct (template "You: " said); reflexivity.
    + unfold run. rewrite H. destruct (template "You: " said); reflexivity.
  - intros -> response Hr.
    pose proof (onmessage_response_done data w msg response Hp Ht Hr) as H.
    destruct (truthy (transcript_of_response response)).
    + rewrite (calls_of_logged _ w
                 [ Console_log "Message:" (JString "response.done");
                   match template "AI: " (transcript_of_response response) with
                   | Some line => SetTranscript (transcript (st w) ++ [line])
                   | None => Updater_throws TypeError
                   end ]).
      * destruct (template "AI: " _); reflexivity.
      * unfold run. rewrite H. destruct (template "AI: " _); reflexivity.
    + rewrite (calls_of_logged _ w
                 [Console_log "Message:" (JString "response.done")]);
        [reflexivity|].
      unfold run. rewrite H. reflexivity.
  - intros -> raw name call_id Ha Hn Hc.
    assert (Hfail :
              match to_string raw with
              | None => True
              | Some text =>
                  match JSON_parse text with
                  | None => True
                  | Some args => property args "effect" = None
                  end
              end ->
              side_effects (calls_of (onmessage data) w) = []).
    { intros Hbad.
      destruct (onmessage_failed_arguments data w msg raw Hp Ht Ha Hbad)
        as [e H].
      rewrite (calls_of_logged _ w
                 [ Console_log "Message:"
                     (JString "response.function_call_arguments.done");
                   Console_error "Error processing message:" e ]);
        [reflexivity|].
      unfold run. rewrite H. reflexivity. }
    split; [|split; [|split]].
    + intros Hs. apply Hfail. rewrite Hs. exact I.
    + intros text Hs Hj. apply Hfail. rewrite Hs, Hj. exact I.
    + intros text args Hs Hj He. apply Hfail. rewrite Hs, Hj. exact He.
    + intros text args effect Hs Hj He.
      pose proof (onmessage_function_call data w msg raw args name call_id effect
                    text Hp Ht Ha Hs Hj Hn Hc He) as H.
      destruct (is_string name "add_effect_to_image" && truthy effect).
      * rewrite (calls_of_logged _ w
          [ Console_log "Message:" (JString "response.function_call_arguments.done");
            SetImageEffect effect; SetTimeout 2000;
            Send (JSON_stringify (functionOutput call_id effect));
            Send (JSON_stringify response_create) ]); [reflexivity|].
        unfold run. rewrite H. reflexivity.
      * rewrite (calls_of_logged _ w
          [ Console_log "Message:" (JString "response.function_call_arguments.done");
            Send (JSON_stringify (functionOutput call_id effect));
            Send (JSON_stringify response_create) ]); [reflexivity|].
        unfold run. rewrite H. reflexivity.
  - intros Hout.
    rewrite (calls_of_logged _ w [Console_log "Message:" (JString lit)]);
      [reflexivity|].
    unfold run. rewrite (onmessage_unrecognized data w msg (JString lit) Hp Ht).
    + reflexivity.
    + intros lit' Hin [= ->]. contradiction.
Qed.

Lemma sample_message_type (lit : string) :
  property (sample_message lit) "type" = Some (JString lit).
Proof. reflexivity. Qed.

Lemma sample_message_matched (lit data : string) (w : world) :
  In lit recognized_types ->
  JSON_parse data = Some (sample_message lit) ->
  (2 <= length (calls_of (onmessage data) w))%nat.
Proof.
  intros Hin Hp. pose proof (sample_message_type lit) as Ht.
  destruct w as [[a t i tr im] r iv k l].
  unfold calls_of, onmessage, onmessage_body. js. cbn [to_string].
  rewrite Hp. js. rewrite Ht. js. unfold sample_message.
  cbn in Hin. destruct Hin as [<-|[<-|[<-|[<-|[<-|[<-|[<-|[]]]]]]]];
    literal_tests; js;
    cbn [property own_property String.eqb Ascii.eqb Bool.eqb
         transcript_of_response opt_property opt_element nullish element
         nth truthy negb template to_string String.append];
    js_cases; count_calls; lia.
Qed.

(** C5. The handler compares [msg.type] with seven literals, all
    different.  A message that parses and whose type is none of them
    leaves the state, the refs, the intervals and the timeouts as they
    were and sends nothing: the only call made is the [console.log] of
    its type.  Each of the seven is really matched: for a message of that
    type carrying a response transcript the handler does more than log
    the type. *)
Theorem unrecognized_message_ignored :
  recognized_types =
    [ "session.created"; "response.audio.delta"; "response.audio.done";
      "input_audio_buffer.speech_started";
      "conversation.item.input_audio_transcription.completed";
      "response.function_call_arguments.done"; "response.done" ] /\
  length recognized_types = 7%nat /\
  NoDup recognized_types /\
  (forall data w msg t,
      JSON_parse data = Some msg ->
      property msg "type" = Some t ->
      (forall lit, In lit recognized_types -> t <> JString lit) ->
      result (onmessage data) w = Normal tt /\
      st (run (onmessage data) w) = st w /\
      rf (run (onmessage data) w) = rf w /\
      intervals (run (onmessage data) w) = intervals w /\
      timeouts (run (onmessage data) w) = timeouts w /\
      calls_of (onmessage data) w = [Console_log "Message:" t]) /\
  (forall lit data w,
      In lit recognized_types ->
      JSON_parse data = Some (sample_message lit) ->
      calls_of (onmessage data) w <> [Console_log "Message:" (JString lit)]).
Proof.
  split; [reflexivity|]. split; [reflexivity|]. split.
  { unfold recognized_types.
    repeat (constructor; [cbn; intuition discriminate|]).
    constructor. }
  split.
  - intros data w msg t Hp Ht Hout.
    pose proof (onmessage_unrecognized data w msg t Hp Ht Hout) as H.
    unfold result, run. rewrite H. cbn [fst snd logged st rf intervals timeouts].
    repeat split. apply calls_of_logged. unfold run. rewrite H. reflexivity.
  - intros lit data w Hin Hp.
    pose proof (sample_message_matched lit data w Hin Hp) as Hn.
    intros E. rewrite E in Hn. cbn in Hn. lia.
Qed.


(** C6. When the data channel opens the component sends three messages;
    the first is the ['session.update'] whose session sets
    [turn_detection] to [{ type: 'server_vad' }] and
    [input_audio_transcription] to [{ model: 'whisper-1' }].  The
    component detects no speech itself: the server's
    ['input_audio_buffer.speech_started'] event only sets [aiState] to
    ['listening'], and nothing is sent in answer to it. *)
Theorem turn_detection_is_server_side :
  (forall w,
      calls_of onopen w =
        [ Console_log "Data channel opened" JUndefined;
          Send (JSON_stringify initialMessage);
          Send (JSON_stringify conversationItem);
          Send (JSON_stringify response_create) ]) /\
  property initialMessage "type" = Some (JString "session.update") /\
  (exists session,
      property initialMessage "session" = Some session /\
      property session "turn_detection" =
        Some (JObject [ ("type", JString "server_vad") ]) /\
      property session "input_audio_transcription" =
        Some (JObject [ ("model", JString "whisper-1") ])) /\
  (forall data w msg,
      JSON_parse data = Some msg ->
      property msg "type" = Some (JString "input_audio_buffer.speech_started") ->
      aiState (st (run (onmessage data) w)) = listening /\
      calls_of (onmessage data) w =
        [ Console_log "Message:" (JString "input_audio_buffer.speech_started");
          SetAIState listening ]).
Proof.
  split.
  { intros w. apply calls_of_logged. unfold onopen. js.
    rewrite <- !app_assoc. reflexivity. }
  split; [reflexivity|]. split.
  { eexists. split; [reflexivity|]. split; reflexivity. }
  intros data w msg Hp Ht.
  assert (Hin : In ("input_audio_buffer.speech_started", listening) state_events)
    by (cbn; auto).
  pose proof (onmessage_state_event data w msg _ _ Hin Hp Ht) as H.
  split.
  - unfold run. rewrite H. reflexivity.
  - apply calls_of_logged. unfold run. rewrite H. reflexivity.
Qed.

(** The updater of [setTranscript] throws only when the transcript it is
    to spell cannot be converted to a string. *)
Lemma template_throws (prefix : string) (v : value) :
  template prefix v = None -> to_string v = None.
Proof. unfold template. destruct (to_string v); [discriminate | reflexivity]. Qed.

Lemma onmessage_updater_throws (data : string) (w : world) (e : exn) :
  In (Updater_throws e) (calls_of (onmessage data) w) ->
  e = TypeError /\
  exists msg spoken,
    JSON_parse data = Some msg /\
    to_string spoken = None /\
    ((property msg "type" =
        Some (JString "conversation.item.input_audio_transcription.completed") /\
      property msg "transcript" = Some spoken) \/
     (property msg "type" = Some (JString "response.done") /\
      exists response,
        property msg "response" = Some response /\
        spoken = transcript_of_response response /\
        truthy spoken = true)).
Proof.
  destruct w as [[a t i tr im] r iv n l].
  unfold calls_of, onmessage, onmessage_body.
  js_cases; count_calls; intros Hin.
  all: try (repeat (destruct Hin as [Hin|Hin]; [discriminate Hin|]); contradiction).
  all: destruct Hin as [Hin|[Hin|[]]]; [discriminate Hin|];
    injection Hin as <-; (split; [reflexivity|]);
    match goal with
    | H : is_string _ _ = true |- _ => apply is_string_true in H; subst
    end;
    match goal with
    | H : template _ ?x = None |- _ =>
        exists v, x; (split; [reflexivity|]);
        (split; [exact (template_throws _ _ H)|])
    end.
  - left. split; assumption.
  - right. split; [assumption|]. eexists. split; [eassumption|].
    split; [reflexivity | assumption].
Qed.

(** ** An updater that throws *)

Lemma crashed_calls {A} (m : M A) (w : world) (calls : list call) :
  log (run m w) = log w ++ calls ->
  crashed (run m w) = crashed w || existsb is_updater_throw calls.
Proof. intros H. unfold crashed. rewrite H. apply existsb_app. Qed.

Lemma unmount_frame (w : world) :
  st (run unmount w) = st w /\
  rf (run unmount w) = rf w /\
  timeouts (run unmount w) = timeouts w /\
  crashed (run unmount w) = crashed w.
Proof.
  unfold unmount, timer_cleanup, crashed.
  destruct w as [s [p d au [h|]] iv n l]; js; repeat split.
  rewrite existsb_app. cbn. apply orb_false_r.
Qed.

(** A message whose handling makes an updater throw unmounts the
    component. *)
Lemma step_crashes (data : string) (w : world) :
  (exists e, In (Updater_throws e) (calls_of (onmessage data) w)) ->
  crashed (step w (Channel_message data)) = true.
Proof.
  intros [e Hin].
  assert (Hc : crashed (dispatch w (Channel_message data)) = true).
  { unfold dispatch, handler, crashed, calls_of in *.
    rewrite <- (firstn_skipn (length (log w)) (log (run (onmessage data) w))).
    rewrite existsb_app. apply orb_true_iff. right.
    apply existsb_exists. exists (Updater_throws e). split; [exact Hin | reflexivity]. }
  unfold step. destruct (crashed w); [exact Hc|].
  cbv zeta. rewrite Hc.
  destruct (unmount_frame (dispatch w (Channel_message data))) as (_ & _ & _ & ->).
  exact Hc.
Qed.

(** The claim "any exception is caught inside the handler", as stated:
    whatever the data, the handler returns normally, no exception raised
    while the message is handled escapes the handler's [catch], and a
    failure leaves the state as it was. *)
Definition every_exception_caught : Prop :=
  forall data w,
    result (onmessage data) w = Normal tt /\
    (forall e, ~ In (Updater_throws e) (calls_of (onmessage data) w)) /\
    (forall e w1,
        onmessage_body data w = (Throw e, w1) ->
        st (run (onmessage data) w) = st w).

(** C9, as amended.  The handler returns normally on every input.  When
    its body throws, the exception is caught and logged, and the state,
    the refs, the intervals and the timeouts are as before the message:
    nothing was set and nothing was sent.  Data that is not JSON, a
    message that is [null], and a tool call whose arguments are not JSON
    are such failures.  One exception is not caught: the one thrown
    later, when React runs the updater given to [setTranscript], by the
    template literal whose transcript cannot be converted to a string.
    It is a [TypeError], it can only come from an input transcription or
    a ['response.done'] with such a transcript, and it does come from
    them: the handler has returned without an error to log, and the
    component is unmounted. *)
Theorem onmessage_never_throws (data : string) (w : world) :
  result (onmessage data) w = Normal tt /\
  (forall e w1,
      onmessage_body data w = (Throw e, w1) ->
      st (run (onmessage data) w) = st w /\
      rf (run (onmessage data) w) = rf w /\
      intervals (run (onmessage data) w) = intervals w /\
      timeouts (run (onmessage data) w) = timeouts w /\
      side_effects (calls_of (onmessage data) w) = [] /\
      In (Console_error "Error processing message:" e)
         (calls_of (onmessage data) w)) /\
  (JSON_parse data = None ->
   onmessage_body data w = (Throw SyntaxError, w)) /\
  (JSON_parse data = Some JNull ->
   onmessage_body data w = (Throw TypeError, w)) /\
  (forall msg raw text,
      JSON_parse data = Some msg ->
      property msg "type" =
        Some (JString "response.function_call_arguments.done") ->
      property msg "arguments" = Some raw ->
      to_string raw = Some text ->
      JSON_parse text = None ->
      exists w1, onmessage_body data w = (Throw SyntaxError, w1)) /\
  (forall e,
      In (Updater_throws e) (calls_of (onmessage data) w) ->
      e = TypeError /\
      exists msg spoken,
        JSON_parse data = Some msg /\
        to_string spoken = None /\
        ((property msg "type" =
            Some (JString "conversation.item.input_audio_transcription.completed") /\
          property msg "transcript" = Some spoken) \/
         (property msg "type" = Some (JString "response.done") /\
          exists response,
            property msg "response" = Some response /\
            spoken = transcript_of_response response /\
            truthy spoken = true))) /\
  (forall msg spoken,
      JSON_parse data = Some msg ->
      to_string spoken = None ->
      (property msg "type" =
         Some (JString "conversation.item.input_audio_transcription.completed") /\
       property msg "transcript" = Some spoken) \/
      (property msg "type" = Some (JString "response.done") /\
       exists response,
         property msg "response" = Some response /\
         spoken = transcript_of_response response /\
         truthy spoken = true) ->
      exists t,
        property msg "type" = Some t /\
        calls_of (onmessage data) w =
          [Console_log "Message:" t; Updater_throws TypeError] /\
        crashed (step w (Channel_message data)) = true).
Proof.
  split; [apply onmessage_frame|]. split.
  { intros e w1 H. destruct (onmessage_caught data w w1 e H) as [Hw1 Hrun].
    unfold run. rewrite Hrun. cbn [snd].
    destruct Hw1 as [-> | [t ->]].
    - cbn [logged st rf intervals timeouts]. repeat split.
      + rewrite (calls_of_logged _ w
                   [Console_error "Error processing message:" e]);
          [reflexivity | unfold run; rewrite Hrun; reflexivity].
      + rewrite (calls_of_logged _ w
                   [Console_error "Error processing message:" e]);
          [cbn; auto | unfold run; rewrite Hrun; reflexivity].
    - cbn [logged st rf intervals timeouts log]. repeat split.
      + rewrite (calls_of_logged _ w
                   [Console_log "Message:" t;
                    Console_error "Error processing message:" e]);
          [reflexivity|].
        unfold run. rewrite Hrun. cbn [snd logged log].
        rewrite <- app_assoc. reflexivity.
      + rewrite (calls_of_logged _ w
                   [Console_log "Message:" t;
                    Console_error "Error processing message:" e]);
          [cbn; auto|].
        unfold run. rewrite Hrun. cbn [snd logged log].
        rewrite <- app_assoc. reflexivity. }
  split; [apply onmessage_not_json|]. split; [apply onmessage_null|].
  split.
  { intros msg raw text Hp Ht Ha Hs Hn. eexists.
    apply (onmessage_bad_arguments data w msg raw text Hp Ht Ha Hs Hn). }
  split; [apply onmessage_updater_throws|].
  intros msg spoken Hp Hs Hcase.
  assert (Hcalls : exists t,
             property msg "type" = Some t /\
             calls_of (onmessage data) w =
               [Console_log "Message:" t; Updater_throws TypeError]).
  { destruct Hcase as [(Ht & Hsaid) | (Ht & response & Hr & -> & Htruthy)].
    - eexists. split; [exact Ht|]. apply calls_of_logged.
      unfold run.
      rewrite (onmessage_user_transcript data w msg spoken Hp Ht Hsaid).
      unfold template. rewrite Hs. reflexivity.
    - eexists. split; [exact Ht|]. apply calls_of_logged.
      unfold run.
      rewrite (onmessage_response_done data w msg response Hp Ht Hr).
      rewrite Htruthy. unfold template. rewrite Hs. reflexivity. }
  destruct Hcalls as (t & Ht & Hcalls). exists t.
  split; [exact Ht|]. split; [exact Hcalls|].
  apply step_crashes. exists TypeError. rewrite Hcalls. cbn. auto.
Qed.

(** The claim "every tool call whose arguments parse is acknowledged", as
    stated. *)
Definition every_parsed_call_acknowledged : Prop :=
  forall data w msg raw text args,
    JSON_parse data = Some msg ->
    property msg "type" = Some (JString "response.function_call_arguments.done") ->
    property msg "arguments" = Some raw ->
    to_string raw = Some text ->
    JSON_parse text = Some args ->
    exists call_id effect,
      In (Send (JSON_stringify (functionOutput call_id effect)))
         (calls_of (onmessage data) w).

(** C10, as amended.  For a tool-call message whose arguments parse to a
    value other than [null], the acknowledgment
    [{success: true, effect: args.effect}] and ['response.create'] are
    sent whatever the function name is; [imageEffect] is set, to
    [args.effect], exactly when the name is ['add_effect_to_image'] and
    [args.effect] is truthy, and is left as it was otherwise. *)
Theorem tool_call_acknowledged (data : string) (w : world)
        (msg raw args : value) (text : string) :
  JSON_parse data = Some msg ->
  property msg "type" = Some (JString "response.function_call_arguments.done") ->
  property msg "arguments" = Some raw ->
  to_string raw = Some text ->
  JSON_parse text = Some args ->
  nullish args = false ->
  exists name call_id effect,
    property msg "name" = Some name /\
    property msg "call_id" = Some call_id /\
    property args "effect" = Some effect /\
    result (onmessage data) w = Normal tt /\
    filter is_send (calls_of (onmessage data) w) =
      [ Send (JSON_stringify (functionOutput call_id effect));
        Send (JSON_stringify response_create) ] /\
    imageEffect (st (run (onmessage data) w)) =
      (if is_string name "add_effect_to_image" && truthy effect
       then effect else imageEffect (st w)) /\
    side_effects (calls_of (onmessage data) w) =
      (if is_string name "add_effect_to_image" && truthy effect
       then [SetImageEffect effect; SetTimeout 2000] else []) ++
      [ Send (JSON_stringify (functionOutput call_id effect));
        Send (JSON_stringify response_create) ].
Proof.
  intros Hp Ht Ha Hs Hj Hnull.
  destruct (property_total _ _ _ "name" Ht) as [name Hn].
  destruct (property_total _ _ _ "call_id" Ht) as [call_id Hc].
  assert (He : exists effect, property args "effect" = Some effect).
  { destruct args; try discriminate Hnull; cbn; eexists; reflexivity. }
  destruct He as [effect He].
  exists name, call_id, effect.
  pose proof (onmessage_function_call data w msg raw args name call_id effect
                text Hp Ht Ha Hs Hj Hn Hc He) as H.
  split; [assumption|]. split; [assumption|]. split; [assumption|].
  split; [unfold result; rewrite H; reflexivity|].
  destruct (is_string name "add_effect_to_image" && truthy effect).
  - rewrite (calls_of_logged _ w
      [ Console_log "Message:" (JString "response.function_call_arguments.done");
        SetImageEffect effect; SetTimeout 2000;
        Send (JSON_stringify (functionOutput call_id effect));
        Send (JSON_stringify response_create) ]);
      [| unfold run; rewrite H; reflexivity].
    unfold run. rewrite H. repeat split.
  - rewrite (calls_of_logged _ w
      [ Console_log "Message:" (JString "response.function_call_arguments.done");
        Send (JSON_stringify (functionOutput call_id effect));
        Send (JSON_stringify response_create) ]);
      [| unfold run; rewrite H; reflexivity].
    unfold run. rewrite H. repeat split.
Qed.


(** * The countdown *)

(** What [startConversation] leaves alone, and what it always sets,
    whether or not its body throws. *)
Lemma startConversation_frame (env : start_env) (w : world) :
  timeRemaining (st (run (startConversation env) w)) = CONVERSATION_DURATION /\
  transcript (st (run (startConversation env) w)) = [] /\
  intervals (run (startConversation env) w) = intervals w /\
  timerRef (rf (run (startConversation env) w)) = timerRef (rf w).
Proof.
  destruct w as [[a t i tr im] [p d au tm] iv n l].
  unfold startConversation, startConversation_body.
  js_cases; repeat split; reflexivity.
Qed.

Lemma timer_tick_decrements (w : world) :
  1 < timeRemaining (st w) ->
  run timer_tick w =
  mkWorld (mkState (aiState (st w)) (timeRemaining (st w) - 1) (isActive (st w))
                   (transcript (st w)) (imageEffect (st w)))
          (rf w) (intervals w) (timeouts w)
          (log w ++ [SetTimeRemaining (timeRemaining (st w) - 1)]).
Proof.
  intros H. destruct w as [[a t i tr im] r iv n l]. cbn in H.
  unfold timer_tick. js.
  destruct (Z.leb_spec t 1); [lia|]. js. reflexivity.
Qed.

(** The last tick: the 0 the updater returns, then [stopConversation]'s
    setters. *)
Lemma timer_tick_stops (w : world) :
  timeRemaining (st w) <= 1 ->
  run timer_tick w = run stopConversation (run (setTimeRemaining 0) w).
Proof.
  intros H. destruct w as [[a t i tr im] [[p|] [d|] [au|] [tm|]] iv n l];
    cbn in H; unfold timer_tick, stopConversation; js;
    (destruct (Z.leb_spec t 1); [|lia]); js; reflexivity.
Qed.

Lemma timer_tick_last (w : world) :
  timeRemaining (st w) <= 1 ->
  st (run timer_tick w) =
    mkState idle CONVERSATION_DURATION false (transcript (st w))
            (imageEffect (st w)) /\
  rf (run timer_tick w) = initial_refs /\
  timeouts (run timer_tick w) = timeouts w /\
  intervals (run timer_tick w) =
    match timerRef (rf w) with
    | Some h => filter (fun i => negb (handle_eqb i h)) (intervals w)
    | None => intervals w
    end.
Proof.
  intros H. rewrite (timer_tick_stops w H).
  rewrite stopConversation_state, stopConversation_refs,
    stopConversation_timeouts, stopConversation_intervals.
  destruct w as [[a t i tr im] r iv n l]. js. repeat split.
Qed.

(** The intervals that are running are the one [timerRef] points to. *)
Definition timer_invariant (w : world) : Prop :=
  0 <= timeRemaining (st w) <= CONVERSATION_DURATION /\
  (forall i, In i (intervals w) -> timerRef (rf w) = Some i) /\
  (intervals w <> [] \/ isActive (st w) = true -> 1 <= timeRemaining (st w)).

Lemma clear_only_interval (iv : list handle) (h : handle) :
  (forall i, In i iv -> Some h = Some i) ->
  filter (fun i => negb (handle_eqb i h)) iv = [].
Proof.
  induction iv as [|x iv IH]; intros H; [reflexivity|].
  cbn. assert (E : Some h = Some x) by (apply H; left; reflexivity).
  injection E as <-. unfold handle_eqb at 1. rewrite Nat.eqb_refl. cbn.
  apply IH. intros i Hi. apply H. right. exact Hi.
Qed.

Lemma no_interval_without_ref (iv : list handle) :
  (forall i, In i iv -> @None handle = Some i) -> iv = [].
Proof.
  destruct iv as [|x iv]; [reflexivity|]. intros H.
  discriminate (H x (or_introl eq_refl)).
Qed.

(** Clearing the interval [timerRef] holds clears every interval. *)
Lemma clear_timerRef (w : world) :
  (forall i, In i (intervals w) -> timerRef (rf w) = Some i) ->
  match timerRef (rf w) with
  | Some h => filter (fun i => negb (handle_eqb i h)) (intervals w)
  | None => intervals w
  end = [].
Proof.
  intros H. destruct (timerRef (rf w)) as [h|].
  - apply clear_only_interval, H.
  - apply no_interval_without_ref, H.
Qed.

Lemma stopConversation_clears (w : world) :
  timer_invariant w -> intervals (run stopConversation w) = [].
Proof.
  intros (_ & H & _). rewrite stopConversation_intervals.
  apply clear_timerRef, H.
Qed.

Lemma timer_invariant_initial : timer_invariant initial_world.
Proof.
  unfold timer_invariant, initial_world, initial_state.
  cbn [st rf intervals timeRemaining isActive].
  split; [unfold CONVERSATION_DURATION; lia|]. split.
  - intros i [].
  - intros [H|H]; [contradiction | discriminate].
Qed.


(** ** What an event does to the timer *)

Lemma dispatch_interval (w : world) :
  dispatch w Interval_fires =
  match intervals w with
  | [] => w
  | _ :: _ => run timer_tick w
  end.
Proof. unfold dispatch, handler, run. destruct (intervals w); reflexivity. Qed.

Lemma dispatch_effect (w : world) (id : handle) :
  dispatch w (Effect_runs id) = run (timer_effect id) (run timer_cleanup w).
Proof.
  unfold dispatch, handler, timer_cleanup.
  destruct w as [s [p d au [h|]] iv n l]; js; reflexivity.
Qed.

Lemma timer_cleanup_clears (w : world) :
  (forall i, In i (intervals w) -> timerRef (rf w) = Some i) ->
  intervals (run timer_cleanup w) = [] /\
  st (run timer_cleanup w) = st w /\
  rf (run timer_cleanup w) = rf w.
Proof.
  intros Href. destruct w as [s [p d au [h|]] iv n l]; unfold timer_cleanup; js.
  - split; [|auto]. apply clear_only_interval, Href.
  - split; [|auto]. apply (no_interval_without_ref iv), Href.
Qed.

(** The timer's view of a handler. *)
Lemma dispatch_timer (w : world) (ev : event) :
  timer_invariant w ->
  let w' := dispatch w ev in
  match ev with
  | Click_start _ =>
      timeRemaining (st w') = CONVERSATION_DURATION /\
      intervals w' = intervals w /\ timerRef (rf w') = timerRef (rf w)
  | Click_stop =>
      timeRemaining (st w') = CONVERSATION_DURATION /\
      isActive (st w') = false /\ intervals w' = []
  | Interval_fires =>
      match intervals w with
      | [] => w' = w
      | _ :: _ =>
          if timeRemaining (st w) <=? 1 then
            timeRemaining (st w') = CONVERSATION_DURATION /\
            isActive (st w') = false /\
            intervals w' = []
          else
            timeRemaining (st w') = timeRemaining (st w) - 1 /\
            isActive (st w') = isActive (st w) /\
            intervals w' = intervals w /\ timerRef (rf w') = timerRef (rf w)
      end
  | Effect_runs id =>
      timeRemaining (st w') = timeRemaining (st w) /\
      isActive (st w') = isActive (st w) /\
      if isActive (st w) && (0 <? timeRemaining (st w)) then
        intervals w' = [id] /\ timerRef (rf w') = Some id
      else intervals w' = []
  | Channel_opens | Channel_message _ | Timeout_fires =>
      timeRemaining (st w') = timeRemaining (st w) /\
      isActive (st w') = isActive (st w) /\
      intervals w' = intervals w /\ timerRef (rf w') = timerRef (rf w)
  end.
Proof.
  intros Hinv. destruct ev as [env| | |id| |data|]; cbn zeta.
  - unfold dispatch, handler.
    destruct (startConversation_frame env w) as (H1 & _ & H2 & H3). auto.
  - unfold dispatch, handler.
    rewrite stopConversation_state, (stopConversation_clears w Hinv). auto.
  - rewrite dispatch_interval.
    destruct (intervals w) as [|i iv] eqn:Hiv; [reflexivity|].
    destruct (Z.leb_spec (timeRemaining (st w)) 1) as [Hle|Hgt].
    + destruct (timer_tick_last w Hle) as (-> & _ & _ & ->).
      rewrite (clear_timerRef w); [auto | apply Hinv].
    + rewrite (timer_tick_decrements w Hgt).
      cbn [st rf intervals timeRemaining isActive]. auto.
  - rewrite dispatch_effect. destruct Hinv as (_ & Href & _).
    destruct (timer_cleanup_clears w Href) as (Hc1 & Hc2 & Hc3).
    destruct (run timer_cleanup w) as [s1 r1 iv1 n1 l1].
    cbn [st rf intervals] in Hc1, Hc2, Hc3. subst.
    destruct (st w) as [a t i tr im]. unfold timer_effect. js.
    destruct i; destruct (0 <? t); cbn [andb]; js; auto.
  - unfold dispatch, handler, onopen. destruct w as [s r iv n l]. js. auto.
  - unfold dispatch, handler.
    destruct (onmessage_frame data w) as (_ & H1 & H2 & H3 & H4).
    rewrite H1, H2, H3, H4. auto.
  - unfold dispatch, handler, image_timeout.
    destruct w as [s r iv [|n] l]; js; auto.
Qed.

Lemma dispatch_invariant (w : world) (ev : event) :
  timer_invariant w -> timer_invariant (dispatch w ev).
Proof.
  intros Hinv. pose proof (dispatch_timer w ev Hinv) as H. cbn zeta in H.
  destruct Hinv as (Hb & Href & Hpos). unfold timer_invariant.
  unfold CONVERSATION_DURATION in *.
  destruct ev as [env| | |id| |data|].
  - destruct H as (-> & -> & ->). split; [lia|]. split; [exact Href | lia].
  - destruct H as (-> & -> & ->). split; [lia|]. split; [intros i [] | lia].
  - destruct (intervals w) as [|i iv] eqn:Hiv.
    + rewrite H. rewrite Hiv. auto.
    + assert (Hone : 1 <= timeRemaining (st w))
        by (apply Hpos; left; discriminate).
      destruct (Z.leb_spec (timeRemaining (st w)) 1).
      * destruct H as (-> & -> & ->). split; [lia|]. split; [intros j []|].
        intros [E|E]; [contradiction | discriminate].
      * destruct H as (-> & -> & -> & ->).
        split; [lia|]. split; [exact Href | lia].
  - destruct H as (-> & -> & H). split; [lia|].
    destruct (isActive (st w)) eqn:Ha; cbn [andb] in H.
    + destruct (Z.ltb_spec 0 (timeRemaining (st w))).
      * destruct H as (-> & ->). split; [|lia].
        intros i [<-|[]]. reflexivity.
      * rewrite H. split; [intros i []|]. intros _. apply Hpos. auto.
    + rewrite H. split; [intros i []|].
      intros [E|E]; [contradiction | discriminate].
  - destruct H as (-> & -> & -> & ->). auto.
  - destruct H as (-> & -> & -> & ->). auto.
  - destruct H as (-> & -> & -> & ->). auto.
Qed.

(** ** The unmount *)

Lemma unmount_clears (w : world) :
  timer_invariant w ->
  timer_invariant (run unmount w) /\ intervals (run unmount w) = [].
Proof.
  intros (Hb & Href & Hpos).
  destruct (timer_cleanup_clears w Href) as (Hi & Hs & Hr).
  unfold unmount, timer_invariant. rewrite Hi, Hs, Hr.
  split; [|reflexivity]. split; [exact Hb|]. split; [intros i []|].
  intros [E|E]; [contradiction | apply Hpos; right; exact E].
Qed.

(** Whatever holds before an event, after its handler and after an
    unmount of what the handler leaves, holds after the event. *)
Lemma step_preserves (P : world -> Prop) (w : world) (ev : event) :
  P w ->
  P (dispatch w ev) ->
  (P (dispatch w ev) -> P (run unmount (dispatch w ev))) ->
  P (step w ev).
Proof.
  intros Hw Hd Hu. unfold step.
  destruct (crashed w);
    [destruct ev; assumption | cbv zeta; destruct (crashed (dispatch w ev)); auto].
Qed.

Lemma step_invariant (w : world) (ev : event) :
  timer_invariant w -> timer_invariant (step w ev).
Proof.
  intros H. apply step_preserves; [exact H | apply dispatch_invariant, H|].
  intros H'. apply unmount_clears, H'.
Qed.

Lemma steps_invariant (evs : list event) (w : world) :
  timer_invariant w -> timer_invariant (steps w evs).
Proof.
  revert w. induction evs as [|ev evs IH]; intros w H; [exact H|].
  cbn. apply IH, step_invariant, H.
Qed.

Lemma reachable_invariant (w : world) : reachable w -> timer_invariant w.
Proof.
  intros [evs ->]. apply steps_invariant, timer_invariant_initial.
Qed.

(** ** Only a message can unmount the component *)

Ltac log_crashed :=
  unfold crashed; cbn [log]; rewrite ?existsb_app;
  cbn [existsb is_updater_throw]; rewrite ?orb_false_r; reflexivity.

Lemma stopConversation_crashed (w : world) :
  crashed (run stopConversation w) = crashed w.
Proof.
  destruct w as [s [[p|] [d|] [a|] [t|]] iv n l];
    unfold stopConversation; js; log_crashed.
Qed.

Lemma startConversation_crashed (env : start_env) (w : world) :
  crashed (run (startConversation env) w) = crashed w.
Proof.
  destruct w as [[a t i tr im] [p d au tm] iv n l].
  unfold startConversation, startConversation_body.
  js_cases; log_crashed.
Qed.

Lemma timer_tick_crashed (w : world) :
  crashed (run timer_tick w) = crashed w.
Proof.
  destruct (Z.leb_spec (timeRemaining (st w)) 1) as [Hle|Hgt].
  - rewrite (timer_tick_stops w Hle), stopConversation_crashed.
    destruct w as [s r iv n l]. js. log_crashed.
  - rewrite (timer_tick_decrements w Hgt). log_crashed.
Qed.

Lemma dispatch_crashed (w : world) (ev : event) :
  (forall data, ev <> Channel_message data) ->
  crashed (dispatch w ev) = crashed w.
Proof.
  intros Hev. destruct ev as [env| | |id| |data|].
  - apply startConversation_crashed.
  - apply stopConversation_crashed.
  - rewrite dispatch_interval. destruct (intervals w); [reflexivity|].
    apply timer_tick_crashed.
  - unfold dispatch, handler, timer_cleanup, timer_effect.
    destruct w as [[a t i tr im] [p d au [h|]] iv n l]; js;
      destruct i; destruct (0 <? t); cbn [andb]; js; log_crashed.
  - unfold dispatch, handler, onopen. destruct w as [s r iv n l]. js.
    log_crashed.
  - exfalso. exact (Hev data eq_refl).
  - unfold dispatch, handler, image_timeout.
    destruct w as [s r iv [|n] l]; js; log_crashed.
Qed.

(** While the component is mounted, an event other than a message is its
    handler, and leaves it mounted. *)
Lemma step_mounted (w : world) (ev : event) :
  crashed w = false ->
  (forall data, ev <> Channel_message data) ->
  step w ev = dispatch w ev /\ crashed (step w ev) = false.
Proof.
  intros Hc Hev. pose proof (dispatch_crashed w ev Hev) as Hd.
  unfold step. rewrite Hc. cbv zeta. rewrite Hd, Hc.
  split; [reflexivity | rewrite Hd; exact Hc].
Qed.

(** Once the component is unmounted no interval runs. *)
Definition crash_invariant (w : world) : Prop :=
  crashed w = true -> intervals w = [].

Lemma step_crash_invariant (w : world) (ev : event) :
  timer_invariant w -> crash_invariant w -> crash_invariant (step w ev).
Proof.
  intros Hinv Hci. unfold crash_invariant, step.
  destruct (crashed w) eqn:Hc.
  - specialize (Hci Hc). intros _.
    pose proof (dispatch_timer w ev Hinv) as H. cbn zeta in H.
    destruct ev as [env| | |id| |data|]; try exact Hci.
    + rewrite dispatch_interval, Hci. exact Hci.
    + destruct H as (_ & _ & -> & _). exact Hci.
    + destruct H as (_ & _ & -> & _). exact Hci.
  - cbv zeta. destruct (crashed (dispatch w ev)) eqn:Hd.
    + intros _. apply unmount_clears, dispatch_invariant, Hinv.
    + intros E. rewrite Hd in E. discriminate E.
Qed.

Lemma reachable_crash_invariant (w : world) :
  reachable w -> crash_invariant w.
Proof.
  intros [evs ->].
  assert (G : forall evs w, timer_invariant w -> crash_invariant w ->
                            crash_invariant (steps w evs)).
  { clear evs. intros evs. induction evs as [|ev evs IH]; intros w Ht Hc;
      [exact Hc|].
    cbn. apply IH; [apply step_invariant | apply step_crash_invariant]; assumption. }
  apply G; [apply timer_invariant_initial|].
  intros E. discriminate E.
Qed.

(** ** How long a session runs *)


(** Whether the event is a tick of a running interval. *)
Definition fires (w : world) (ev : event) : nat :=
  match ev, intervals w with
  | Interval_fires, _ :: _ => 1
  | _, _ => 0
  end.

(** The ticks that fire while [evs] happen to [w]. *)
Fixpoint ticks_fired (w : world) (evs : list event) : nat :=
  match evs with
  | [] => 0
  | ev :: rest => fires w ev + ticks_fired (step w ev) rest
  end.




(** An event is its handler, or nothing (a click or an effect after the
    unmount), or its handler and the unmount. *)
Lemma step_cases (w : world) (ev : event) :
  step w ev = dispatch w ev \/
  (step w ev = w /\ fires w ev = 0%nat) \/
  step w ev = run unmount (dispatch w ev).
Proof.
  unfold step. destruct (crashed w).
  - destruct ev; auto.
  - cbv zeta. destruct (crashed (dispatch w ev)); auto.
Qed.







(** * The transcript *)

Lemma timer_tick_transcript (w : world) :
  transcript (st (run timer_tick w)) = transcript (st w).
Proof.
  destruct (Z.leb_spec (timeRemaining (st w)) 1) as [Hle|Hgt].
  - destruct (timer_tick_last w Hle) as (-> & _). reflexivity.
  - rewrite (timer_tick_decrements w Hgt). reflexivity.
Qed.

(** A line a message can add. *)
Definition spoken_line (line : string) : Prop :=
  exists s, line = String.append "You: " s \/ line = String.append "AI: " s.

Lemma dispatch_transcript (w : world) (ev : event) :
  match ev with
  | Click_start _ => transcript (st (dispatch w ev)) = []
  | Channel_message data =>
      transcript (st (dispatch w ev)) = transcript (st w) \/
      exists msg s,
        JSON_parse data = Some msg /\
        ((property msg "type" =
            Some (JString "conversation.item.input_audio_transcription.completed") /\
          transcript (st (dispatch w ev)) =
            transcript (st w) ++ [String.append "You: " s]) \/
         (property msg "type" = Some (JString "response.done") /\
          transcript (st (dispatch w ev)) =
            transcript (st w) ++ [String.append "AI: " s]))
  | _ => transcript (st (dispatch w ev)) = transcript (st w)
  end.
Proof.
  destruct ev as [env| | |id| |data|].
  - unfold dispatch, handler. apply startConversation_frame.
  - unfold dispatch, handler. rewrite stopConversation_state. reflexivity.
  - rewrite dispatch_interval. destruct (intervals w); [reflexivity|].
    apply timer_tick_transcript.
  - unfold dispatch, handler, timer_cleanup, timer_effect.
    destruct w as [[a t i tr im] [p d au [h|]] iv n l]; js;
      destruct i; destruct (0 <? t); reflexivity.
  - unfold dispatch, handler, onopen. destruct w as [s r iv n l]. js. reflexivity.
  - unfold dispatch, handler. apply onmessage_transcript.
  - unfold dispatch, handler, image_timeout.
    destruct w as [s r iv [|n] l]; js; reflexivity.
Qed.

(** The state after an event is the state its handler leaves, or the
    state before it. *)
Lemma step_state (w : world) (ev : event) :
  st (step w ev) = st (dispatch w ev) /\
  timeouts (step w ev) = timeouts (dispatch w ev) \/
  step w ev = w.
Proof.
  destruct (step_cases w ev) as [-> | [(-> & _) | ->]]; auto.
  left. destruct (unmount_frame (dispatch w ev)) as (-> & _ & -> & _). auto.
Qed.





(** * What is rendered

    The part of the JSX that depends on the state.  The positions of the
    effect icons are drawn with [Math.random] and the width of the
    progress bar is a floating-point percentage; neither is modelled. *)

(** [getStateColor]. *)
Definition getStateColor (s : state) : string :=
  match aiState s with
  | listening => "bg-green-500"
  | thinking => "bg-yellow-500"
  | speaking => "bg-blue-500"
  | connecting => "bg-purple-500"
  | idle => "bg-gray-400"
  end.

(** [getStateText]. *)
Definition getStateText (s : state) : string :=
  match aiState s with
  | listening => "Listening to you..."
  | thinking => "Thinking..."
  | speaking => "Speaking..."
  | connecting => "Connecting..."
  | idle => "Press Start to begin!"
  end.

Inductive icon : Type :=
  | Mic
  | MicOff
  | Volume2
  | Sparkles
  | Heart
  | Star.

(** The icons in the status badge: three [cond && <Icon/>] in a row. *)
Definition badge_icons (s : state) : list icon :=
  match aiState s with listening => [Mic] | _ => [] end ++
  match aiState s with speaking => [Volume2] | _ => [] end ++
  match aiState s with thinking => [Sparkles] | _ => [] end.

(** The decimal text of an integer, as [Number.prototype.toString] and
    JSX give it for an integer below [1e21]. *)
Definition integer_to_string (n : Z) : string :=
  NilZero.string_of_int (Z.to_int n).

Fixpoint repeat_string (n : nat) (fill : string) : string :=
  match n with
  | O => ""
  | S n => String.append fill (repeat_string n fill)
  end.

(** [s.padStart(n, fill)] for a one-character [fill]. *)
Definition padStart (n : nat) (fill : string) (s : string) : string :=
  String.append (repeat_string (n - String.length s) fill) s.

(** [{Math.floor(timeRemaining / 60)}:{(timeRemaining % 60).toString().padStart(2, '0')}]:
    [Math.floor] of the quotient rounds down and [%] keeps the sign of
    the dividend. *)
Definition clock (t : Z) : string :=
  String.append (integer_to_string (t / 60))
    (String.append ":" (padStart 2 "0" (integer_to_string (Z.rem t 60)))).

(** The three overlays, each [imageEffect === name && (...)], with the
    icon drawn and the number of copies ([[...Array(n)].map]). *)
Definition overlays (s : state) : list (icon * nat) :=
  (if is_string (imageEffect s) "sparkle" then [(Sparkles, 20%nat)] else []) ++
  (if is_string (imageEffect s) "heart" then [(Heart, 15%nat)] else []) ++
  (if is_string (imageEffect s) "star" then [(Star, 15%nat)] else []).

(** The button: [!isActive ? <Start/> : <Stop/>], with its icon, its
    label and the event its [onClick] raises. *)
Inductive button : Type :=
  | Start_button
  | Stop_button.

Definition control (s : state) : button :=
  if negb (isActive s) then Start_button else Stop_button.

Definition button_icon (b : button) : icon :=
  match b with
  | Start_button => Mic
  | Stop_button => MicOff
  end.

Definition button_label (b : button) : string :=
  match b with
  | Start_button => "Start Talking!"
  | Stop_button => "Stop"
  end.

Definition onClick (b : button) (env : start_env) : event :=
  match b with
  | Start_button => Click_start env
  | Stop_button => Click_stop
  end.

(** The class of a transcript line: [line.startsWith('You:') ? ... : ...]. *)
Definition line_class (line : string) : string :=
  if String.prefix "You:" line
  then "bg-blue-100 text-blue-900"
  else "bg-green-100 text-green-900".

(** The conversation panel: the placeholder ([None]) when
    [transcript.length === 0], the lines with their classes otherwise. *)
Definition conversation (s : state) : option (list (string * string)) :=
  match transcript s with
  | [] => None
  | lines => Some (map (fun line => (line_class line, line)) lines)
  end.

Record view : Type := mkView {
  badge_color : string;
  badge : list icon;
  badge_text : string;
  clock_text : string;
  effects : list (icon * nat);
  shown_button : button;
  panel : option (list (string * string))
}.

Definition render (s : state) : view :=
  mkView (getStateColor s) (badge_icons s) (getStateText s)
         (clock (timeRemaining s)) (overlays s) (control s) (conversation s).


(** * Further properties of the handlers *)

(** What a message can do to the badge and to the image. *)
Lemma onmessage_view (data : string) (w : world) :
  (aiState (st (run (onmessage data) w)) = aiState (st w) \/
   aiState (st (run (onmessage data) w)) = listening \/
   aiState (st (run (onmessage data) w)) = speaking) /\
  ((imageEffect (st (run (onmessage data) w)) = imageEffect (st w) /\
    timeouts (run (onmessage data) w) = timeouts w) \/
   timeouts (run (onmessage data) w) = S (timeouts w)).
Proof.
  destruct w as [[a t i tr im] r iv n l].
  unfold onmessage, onmessage_body.
  js_cases; split; auto.
Qed.

Lemma startConversation_view (env : start_env) (w : world) :
  ((aiState (st (run (startConversation env) w)) = connecting /\
    isActive (st (run (startConversation env) w)) = true /\
    exists w1, startConversation_body env w = (Normal tt, w1)) \/
   (aiState (st (run (startConversation env) w)) = idle /\
    isActive (st (run (startConversation env) w)) = false /\
    exists e w1, startConversation_body env w = (Throw e, w1))) /\
  imageEffect (st (run (startConversation env) w)) = imageEffect (st w) /\
  timeouts (run (startConversation env) w) = timeouts w.
Proof.
  destruct w as [[a t i tr im] [p d au tm] iv n l].
  unfold startConversation, startConversation_body.
  js_cases; repeat match goal with u : unit |- _ => destruct u end;
    (split; [|split; reflexivity]);
    first [ left; split; [reflexivity | split; [reflexivity|]];
            eexists; reflexivity
          | right; split; [reflexivity | split; [reflexivity|]];
            eexists; eexists; reflexivity ].
Qed.

Lemma dispatch_effect_state (w : world) (id : handle) :
  st (dispatch w (Effect_runs id)) = st w /\
  timeouts (dispatch w (Effect_runs id)) = timeouts w.
Proof.
  rewrite dispatch_effect. unfold timer_cleanup, timer_effect.
  destruct w as [[a t i tr im] [p d au [h|]] iv n l]; js;
    destruct i; destruct (0 <? t); cbn [andb]; js; auto.
Qed.

Lemma timer_tick_view (w : world) :
  (aiState (st (run timer_tick w)) = aiState (st w) \/
   aiState (st (run timer_tick w)) = idle) /\
  imageEffect (st (run timer_tick w)) = imageEffect (st w) /\
  timeouts (run timer_tick w) = timeouts w.
Proof.
  destruct (Z.leb_spec (timeRemaining (st w)) 1) as [Hle|Hgt].
  - destruct (timer_tick_last w Hle) as (-> & _ & -> & _).
    cbn [aiState imageEffect]. auto.
  - rewrite (timer_tick_decrements w Hgt). cbn [st aiState imageEffect timeouts].
    auto.
Qed.

(** The badge, the transcript lines, the image effect and the running
    intervals in a world the component can be in. *)
Definition ui_invariant (w : world) : Prop :=
  aiState (st w) <> thinking /\
  Forall spoken_line (transcript (st w)) /\
  (imageEffect (st w) = JString "none" \/ (0 < timeouts w)%nat) /\
  (length (intervals w) <= 1)%nat.

Lemma ui_invariant_initial : ui_invariant initial_world.
Proof.
  unfold ui_invariant, initial_world, initial_state.
  cbn [st aiState transcript imageEffect timeouts intervals length].
  split; [discriminate|]. split; [constructor|]. split; [left; reflexivity | lia].
Qed.

Lemma dispatch_ui_invariant (w : world) (ev : event) :
  timer_invariant w -> ui_invariant w -> ui_invariant (dispatch w ev).
Proof.
  intros Ht (Hai & Hlines & Himage & Hone).
  pose proof (dispatch_timer w ev Ht) as Htimer. cbn zeta in Htimer.
  pose proof (dispatch_transcript w ev) as Htr.
  unfold ui_invariant.
  destruct ev as [env| | |id| |data|].
  - destruct (startConversation_view env w) as (Ha & Him & Hto).
    unfold dispatch, handler in *. rewrite Htr, Him, Hto.
    destruct Htimer as (_ & -> & _).
    split; [|split; [constructor | split; assumption]].
    destruct Ha as [(-> & _) | (-> & _)]; discriminate.
  - unfold dispatch, handler in *. destruct Htimer as (_ & _ & ->).
    rewrite stopConversation_state, stopConversation_timeouts.
    cbn [aiState transcript imageEffect length].
    split; [discriminate|]. split; [assumption|]. split; [assumption | lia].
  - rewrite dispatch_interval in *. destruct (intervals w) as [|i iv] eqn:Hiv.
    + rewrite Hiv. auto.
    + destruct (timer_tick_view w) as (Ha & -> & ->).
      rewrite Htr. split.
      { destruct Ha as [-> | ->]; [assumption | discriminate]. }
      split; [assumption|]. split; [assumption|].
      destruct (timeRemaining (st w) <=? 1).
      * destruct Htimer as (_ & _ & ->). cbn. lia.
      * destruct Htimer as (_ & _ & -> & _). exact Hone.
  - destruct (dispatch_effect_state w id) as (Hs & Hto). rewrite Hs, Hto.
    split; [assumption|]. split; [assumption|]. split; [assumption|].
    destruct Htimer as (_ & _ & H).
    destruct (isActive (st w) && (0 <? timeRemaining (st w))).
    + destruct H as (-> & _). cbn. lia.
    + rewrite H. cbn. lia.
  - destruct Htimer as (_ & _ & -> & _). rewrite Htr.
    unfold dispatch, handler, onopen. destruct w as [s r iv n l]. js.
    cbn [st timeouts aiState imageEffect] in *. auto.
  - destruct Htimer as (_ & _ & -> & _).
    destruct (onmessage_view data w) as (Ha & Him).
    unfold dispatch, handler in *. split.
    { destruct Ha as [-> | [-> | ->]]; [assumption | discriminate | discriminate]. }
    split.
    { destruct Htr as [-> | (msg & s & _ & [(_ & ->) | (_ & ->)])];
        [assumption | |];
        (apply Forall_app; split; [assumption|]);
        constructor; try constructor; exists s; [left | right]; reflexivity. }
    split; [|exact Hone].
    destruct Him as [(-> & ->) | ->]; [assumption | right; lia].
  - destruct Htimer as (_ & _ & -> & _). rewrite Htr.
    unfold dispatch, handler, image_timeout.
    destruct w as [[a t i tr im] r iv [|n] l]; js;
      cbn [st timeouts aiState imageEffect] in *; auto.
Qed.

Lemma step_ui_invariant (w : world) (ev : event) :
  timer_invariant w -> ui_invariant w -> ui_invariant (step w ev).
Proof.
  intros Ht Hu.
  apply step_preserves; [exact Hu | apply dispatch_ui_invariant; assumption|].
  intros (Hai & Hlines & Himage & Hone). unfold ui_invariant.
  destruct (unmount_frame (dispatch w ev)) as (-> & _ & -> & _).
  destruct (unmount_clears _ (dispatch_invariant w ev Ht)) as (_ & ->).
  cbn [length]. repeat split; try assumption. lia.
Qed.

Lemma steps_ui_invariant (evs : list event) (w : world) :
  timer_invariant w -> ui_invariant w -> ui_invariant (steps w evs).
Proof.
  revert w. induction evs as [|ev evs IH]; intros w Ht Hu; [exact Hu|].
  cbn. apply IH; [apply step_invariant | apply step_ui_invariant]; assumption.
Qed.

Lemma reachable_ui_invariant (w : world) : reachable w -> ui_invariant w.
Proof.
  intros [evs ->].
  apply steps_ui_invariant; [apply timer_invariant_initial | apply ui_invariant_initial].
Qed.

(** The platform's callbacks run whether or not the component is
    mounted. *)
Lemma step_callback (w : world) (ev : event) :
  ev = Interval_fires \/ ev = Channel_opens \/ ev = Timeout_fires ->
  step w ev = dispatch w ev.
Proof.
  intros Hev. destruct (crashed w) eqn:Hc.
  - unfold step. rewrite Hc. destruct Hev as [-> | [-> | ->]]; reflexivity.
  - apply step_mounted; [exact Hc|].
    intros data ->. destruct Hev as [E | [E | E]]; discriminate E.
Qed.


(** X1. No message can start, stop or extend the session.  In a world
    the component can be in, and while it is mounted, a message either
    leaves [isActive], [timeRemaining], the four refs and the running
    intervals as they are, the only states it can put in the badge being
    ['listening'] and ['speaking']; or it makes the updater of
    [setTranscript] throw a [TypeError], and the component is unmounted:
    no interval runs any more. *)
Theorem message_leaves_session_alone (data : string) (w : world) :
  reachable w ->
  crashed w = false ->
  let w' := step w (Channel_message data) in
  (crashed w' = false /\
   isActive (st w') = isActive (st w) /\
   timeRemaining (st w') = timeRemaining (st w) /\
   rf w' = rf w /\
   intervals w' = intervals w /\
   (aiState (st w') = aiState (st w) \/
    aiState (st w') = listening \/
    aiState (st w') = speaking)) \/
  (crashed w' = true /\
   In (Updater_throws TypeError) (calls_of (onmessage data) w) /\
   intervals w' = []).
Proof.
  intros Hr Hc w'. subst w'. apply reachable_invariant in Hr.
  pose proof (dispatch_invariant w (Channel_message data) Hr) as Hinv.
  unfold step. rewrite Hc. cbv zeta.
  destruct (crashed (dispatch w (Channel_message data))) eqn:Hd.
  - right.
    destruct (unmount_frame (dispatch w (Channel_message data)))
      as (_ & _ & _ & ->).
    split; [exact Hd|]. split; [|apply unmount_clears, Hinv].
    unfold dispatch, handler, crashed in Hd, Hc.
    unfold calls_of.
    rewrite <- (firstn_skipn (length (log w)) (log (run (onmessage data) w)))
      in Hd.
    rewrite existsb_app in Hd. apply orb_true_iff in Hd.
    assert (Hlog : exists calls, log (run (onmessage data) w) = log w ++ calls).
    { clear. destruct w as [[a t i tr im] r iv n l].
      unfold onmessage, onmessage_body.
      js_cases; cbn [log]; rewrite <- ?app_assoc; eexists; reflexivity. }
    destruct Hlog as [calls Hlog]. rewrite Hlog in Hd |- *.
    rewrite firstn_app, firstn_all, Nat.sub_diag, app_nil_r in Hd.
    rewrite skipn_app, skipn_all, Nat.sub_diag in Hd |- *. cbn [skipn app] in *.
    destruct Hd as [Hd | Hd]; [rewrite Hc in Hd; discriminate Hd|].
    apply existsb_exists in Hd. destruct Hd as ([] & Hin & Hx);
      try discriminate Hx.
    assert (Hin' : In (Updater_throws e) (calls_of (onmessage data) w)).
    { rewrite (calls_of_logged _ w calls Hlog). exact Hin. }
    destruct (onmessage_updater_throws data w e Hin') as (-> & _).
    exact Hin.
  - left. split; [exact Hd|]. unfold dispatch, handler.
    destruct (onmessage_frame data w) as (_ & Hrf & Hi & Ht & Ha).
    destruct (onmessage_view data w) as (Hs & _).
    repeat split; assumption.
Qed.

(** X2. The handler sends on the data channel only in answer to a
    ['response.function_call_arguments.done'] message: for any other
    data nothing is sent. *)
Theorem only_tool_calls_send (data : string) (w : world) :
  filter is_send (calls_of (onmessage data) w) = [] \/
  exists msg,
    JSON_parse data = Some msg /\
    property msg "type" = Some (JString "response.function_call_arguments.done").
Proof.
  destruct w as [[a t i tr im] r iv n l].
  unfold calls_of, onmessage, onmessage_body.
  js_cases; count_calls; try (left; reflexivity); right;
    match goal with
    | H : is_string _ "response.function_call_arguments.done" = true |- _ =>
        apply is_string_true in H; subst
    end;
    eexists; (split; [reflexivity | assumption]).
Qed.

(** X3. Among the messages that parse to something other than [null],
    only a tool call can make the handler's body throw: for every other
    type, with whatever fields missing, the body completes and nothing is
    written to [console.error]. *)
Theorem only_tool_calls_throw (data : string) (w : world) (msg t : value) :
  JSON_parse data = Some msg ->
  property msg "type" = Some t ->
  t <> JString "response.function_call_arguments.done" ->
  exists w1, onmessage_body data w = (Normal tt, w1).
Proof.
  intros Hp Ht Hnot.
  assert (Hfc : is_string t "response.function_call_arguments.done" = false)
    by (apply is_string_false; exact Hnot).
  destruct w as [[a tm i tr im] r iv n l].
  unfold onmessage_body. js. cbn [to_string]. rewrite Hp. js. rewrite Ht. js.
  rewrite Hfc.
  js_cases; try property_absurd; eexists; reflexivity.
Qed.

(** X4. ['thinking'] is never reached: in every world the component can
    be in, [aiState] is one of the other four states, so the badge never
    reads "Thinking...", is never yellow and never shows the spinning
    icon. *)
Theorem badge_never_thinking (w : world) :
  reachable w ->
  aiState (st w) <> thinking /\
  getStateText (st w) <> "Thinking..." /\
  getStateColor (st w) <> "bg-yellow-500" /\
  ~ In Sparkles (badge_icons (st w)).
Proof.
  intros H. apply reachable_ui_invariant in H. destruct H as (H & _).
  unfold getStateText, getStateColor, badge_icons.
  destruct (aiState (st w)); try contradiction;
    (split; [discriminate|]); (split; [discriminate|]);
    (split; [discriminate|]); cbn; intuition discriminate.
Qed.

(** X5. The component never has two countdown intervals running: in
    every reachable world at most one interval runs, and it is the one
    [timerRef] holds. *)
Theorem one_interval_at_most (w : world) :
  reachable w ->
  (length (intervals w) <= 1)%nat /\
  (forall i, In i (intervals w) -> timerRef (rf w) = Some i).
Proof.
  intros H. split.
  - apply reachable_ui_invariant in H. apply H.
  - apply reachable_invariant in H. apply H.
Qed.


(** ** The countdown runs out *)





(** X7. An effect on the image never stays: in every reachable world
    either [imageEffect] is ['none'] or a reset is pending; and when a
    pending reset fires, [imageEffect] is ['none'] and no overlay is
    drawn, whichever tool call scheduled it. *)
Theorem image_effect_is_reset :
  (forall w,
      reachable w ->
      imageEffect (st w) = JString "none" \/ (0 < timeouts w)%nat) /\
  (forall w,
      (0 < timeouts w)%nat ->
      imageEffect (st (step w Timeout_fires)) = JString "none" /\
      overlays (st (step w Timeout_fires)) = [] /\
      timeouts (step w Timeout_fires) = pred (timeouts w)).
Proof.
  split.
  - intros w H. apply reachable_ui_invariant in H. apply H.
  - intros w H. rewrite (step_callback w Timeout_fires) by auto.
    unfold dispatch, handler, image_timeout.
    destruct w as [[a t i tr im] r iv [|n] l]; cbn [timeouts] in H; [lia|].
    js. repeat split.
Qed.


(** ** The clock *)

Definition digit (n : Z) : ascii := ascii_of_nat (48 + Z.to_nat n).

(** The text [m:ss] for [t] seconds. *)
Definition minutes_seconds (t : Z) : string :=
  String (digit (t / 60))
    (String ":" (String (digit (t mod 60 / 10))
                   (String (digit (t mod 10)) EmptyString))).

Lemma clock_below_ten_minutes (n : nat) :
  (n < 600)%nat -> clock (Z.of_nat n) = minutes_seconds (Z.of_nat n).
Proof.
  intros H.
  assert (Hall : forallb (fun k => String.eqb (clock (Z.of_nat k))
                                     (minutes_seconds (Z.of_nat k)))
                         (seq 0 600) = true) by (vm_compute; reflexivity).
  rewrite forallb_forall in Hall.
  apply String.eqb_eq, Hall, in_seq. lia.
Qed.

(** X8. The clock shows minutes and seconds: for [0 <= t < 600] the text
    is one digit of minutes, a colon and two digits of seconds (the
    seconds padded with a zero below ten); in every reachable world that
    is what is rendered, four characters long, ["1:00"] for a full
    minute. *)
Theorem clock_reads_minutes_and_seconds :
  (forall t, 0 <= t < 600 -> clock t = minutes_seconds t) /\
  (forall w,
      reachable w ->
      clock_text (render (st w)) = minutes_seconds (timeRemaining (st w)) /\
      String.length (clock_text (render (st w))) = 4%nat) /\
  clock CONVERSATION_DURATION = "1:00" /\
  clock 9 = "0:09" /\
  clock 0 = "0:00".
Proof.
  assert (H : forall t, 0 <= t < 600 -> clock t = minutes_seconds t).
  { intros t Ht. rewrite <- (Z2Nat.id t) by lia.
    apply clock_below_ten_minutes. lia. }
  split; [exact H|]. split; [|repeat split].
  intros w Hr. apply reachable_invariant in Hr. destruct Hr as (Hb & _).
  unfold CONVERSATION_DURATION in Hb. cbn [render clock_text].
  rewrite H by lia. split; reflexivity.
Qed.

(** ** The conversation panel *)

Lemma line_class_you (s : string) :
  line_class (String.append "You: " s) = "bg-blue-100 text-blue-900".
Proof. reflexivity. Qed.

Lemma line_class_ai (s : string) :
  line_class (String.append "AI: " s) = "bg-green-100 text-green-900".
Proof. reflexivity. Qed.

(** X9. The panel colours the lines by speaker: in every reachable world
    each transcript line is a ["You: ..."] line, drawn blue, or an
    ["AI: ..."] line, drawn green; the placeholder is shown exactly when
    the transcript is empty, and otherwise the lines are shown in
    transcript order. *)
Theorem transcript_lines_coloured (w : world) :
  reachable w ->
  Forall (fun line =>
            (exists s, line = String.append "You: " s /\
                       line_class line = "bg-blue-100 text-blue-900") \/
            (exists s, line = String.append "AI: " s /\
                       line_class line = "bg-green-100 text-green-900"))
         (transcript (st w)) /\
  (panel (render (st w)) = None <-> transcript (st w) = []) /\
  (forall rows, panel (render (st w)) = Some rows ->
                map snd rows = transcript (st w)).
Proof.
  intros H. apply reachable_ui_invariant in H. destruct H as (_ & H & _).
  split.
  - eapply Forall_impl; [|exact H]. intros line (s & [-> | ->]).
    + left. exists s. split; [reflexivity | apply line_class_you].
    + right. exists s. split; [reflexivity | apply line_class_ai].
  - cbn [render panel]. unfold conversation.
    destruct (transcript (st w)) as [|line lines].
    + split; [split; reflexivity | discriminate].
    + split; [split; discriminate|].
      assert (G : forall l : list string,
                 map snd (map (fun x => (line_class x, x)) l) = l)
        by (induction l as [|x l IH]; cbn; congruence).
      intros rows [= <-]. apply (G (line :: lines)).
Qed.


(** ** [startConversation]: what it calls *)

(** A call that closes or releases something the component holds. *)
Definition is_release (c : call) : bool :=
  match c with
  | Close_pc _ | Close_dc _ | Detach_audio _ | ClearInterval _ => true
  | _ => false
  end.

Definition is_platform (c : call) : bool :=
  match c with
  | Platform _ => true
  | _ => false
  end.

(** The four setters [startConversation] begins with. *)
Definition start_calls : list call :=
  [ SetAIState connecting; SetIsActive true;
    SetTimeRemaining CONVERSATION_DURATION; SetTranscript [] ].

Lemma startConversation_quiet (env : start_env) (w : world) :
  filter (fun c => is_send c || is_release c)
         (calls_of (startConversation env) w) = [].
Proof.
  destruct w as [[a t i tr im] [p d au tm] iv n l].
  unfold calls_of, startConversation, startConversation_body.
  js_cases; count_calls; reflexivity.
Qed.

Lemma startConversation_calls (env : start_env) (w : world) :
  ((exists w1, startConversation_body env w = (Normal tt, w1)) /\
   filter (fun c => negb (is_platform c)) (calls_of (startConversation env) w) =
     start_calls) \/
  (exists e,
      (exists w1, startConversation_body env w = (Throw e, w1)) /\
      filter (fun c => negb (is_platform c)) (calls_of (startConversation env) w) =
        start_calls ++
        [ Console_error "Error starting conversation:" e;
          SetAIState idle; SetIsActive false ]).
Proof.
  destruct w as [[a t i tr im] [p d au tm] iv n l].
  unfold calls_of, startConversation, startConversation_body.
  js_cases; repeat match goal with u : unit |- _ => destruct u end;
    count_calls;
    first [ left; split; [eexists; reflexivity | reflexivity]
          | right; eexists; split; [eexists; reflexivity | reflexivity] ].
Qed.

(** What [startConversation] calls does not depend on the world it is
    called in: it reads neither the state nor the refs. *)
Lemma startConversation_blind (env : start_env) (w w' : world) :
  calls_of (startConversation env) w = calls_of (startConversation env) w'.
Proof.
  destruct w as [[a t i tr im] [p d au tm] iv n l].
  destruct w' as [[a' t' i' tr' im'] [p' d' au' tm'] iv' n' l'].
  unfold calls_of, startConversation, startConversation_body.
  js_cases; cbn [log]; rewrite <- ?app_assoc;
    rewrite !skipn_app, !skipn_all, !Nat.sub_diag; reflexivity.
Qed.

(** X10. What [startConversation] itself does, whatever happens between
    its steps.  Its calls are the same in every world: it reads neither
    the state nor the refs.  It begins with [setAIState('connecting')],
    [setIsActive(true)], [setTimeRemaining(CONVERSATION_DURATION)] and
    [setTranscript([])].  When no step of its body throws, these are its
    only calls besides the platform's.  When a step throws, it then logs
    the error and calls [setAIState('idle')] and [setIsActive(false)],
    and nothing else.  In both cases it sends nothing on a data channel
    and closes or releases nothing. *)
Theorem startConversation_outcome (env : start_env) (w : world) :
  let calls := calls_of (startConversation env) w in
  (forall w', calls_of (startConversation env) w' = calls) /\
  (((exists w1, startConversation_body env w = (Normal tt, w1)) /\
    filter (fun c => negb (is_platform c)) calls = start_calls) \/
   (exists e,
       (exists w1, startConversation_body env w = (Throw e, w1)) /\
       filter (fun c => negb (is_platform c)) calls =
         start_calls ++
         [ Console_error "Error starting conversation:" e;
           SetAIState idle; SetIsActive false ])) /\
  filter (fun c => is_send c || is_release c) calls = [].
Proof.
  cbv zeta. split; [intros w'; apply startConversation_blind|].
  split; [apply startConversation_calls | apply startConversation_quiet].
Qed.

(** X11. A refused microphone.  When the session is granted and the peer
    connection is created but [getUserMedia] rejects, the error is caught
    and logged, and the last things [startConversation] does are
    [setAIState('idle')] and [setIsActive(false)]: so the Start button is
    shown again.  The calls it has made are exactly these: the connection
    that was created is never closed, and no data channel is created. *)
Theorem microphone_refused (env : start_env) (w : world)
        (r : http_response) (data : value) (pc : handle) :
  session_fetch env = Some r ->
  json r = Some data ->
  ok r = true ->
  peer_connection env = Some pc ->
  user_media env = None ->
  result (startConversation env) w = Normal tt /\
  aiState (st (run (startConversation env) w)) = idle /\
  isActive (st (run (startConversation env) w)) = false /\
  control (st (run (startConversation env) w)) = Start_button /\
  calls_of (startConversation env) w =
    [ SetAIState connecting; SetIsActive true;
      SetTimeRemaining CONVERSATION_DURATION; SetTranscript [];
      Platform "fetch"; Platform "response.json";
      Platform "new RTCPeerConnection"; Platform "document.createElement";
      Platform "getUserMedia";
      Console_error "Error starting conversation:" (Rejected "getUserMedia");
      SetAIState idle; SetIsActive false ].
Proof.
  intros Hf Hj Hok Hpc Hum.
  destruct w as [[a t i tr im] [p d au tm] iv n l].
  unfold calls_of, control, startConversation, startConversation_body. js.
  rewrite Hf. js. rewrite Hj. js. rewrite Hok. js. rewrite Hpc. js.
  rewrite Hum. js. repeat split. count_calls. reflexivity.
Qed.

(** ** The declared tool and the overlays *)

(** [session.tools] of the ['session.update'] message. *)
Definition declared_tools : list value :=
  match property initialMessage "session" with
  | Some session =>
      match property session "tools" with
      | Some (JArray tools) => tools
      | _ => []
      end
  | None => []
  end.

Definition tool_name (tool : value) : option string :=
  match property tool "name" with
  | Some (JString name) => Some name
  | _ => None
  end.

(** [tool.parameters.properties.effect.enum], the strings in it. *)
Definition tool_effects (tool : value) : list string :=
  match property tool "parameters" with
  | Some parameters =>
      match property parameters "properties" with
      | Some properties =>
          match property properties "effect" with
          | Some effect =>
              match property effect "enum" with
              | Some (JArray names) =>
                  flat_map (fun v => match v with JString s => [s] | _ => [] end)
                           names
              | _ => []
              end
          | None => []
          end
      | None => []
      end
  | None => []
  end.

Lemma declared_tool :
  exists tool,
    declared_tools = [tool] /\
    tool_name tool = Some "add_effect_to_image" /\
    tool_effects tool = ["sparkle"; "heart"; "star"].
Proof. eexists. split; [reflexivity|]. split; reflexivity. Qed.

(** X12. The tool the session declares is the tool the handler executes
    and the view draws: for every tool in the ['session.update'] message
    and every effect in its [enum], a tool call with that name and that
    effect sets [imageEffect] to it, and exactly one overlay is drawn
    for it. *)
Theorem declared_effects_are_drawn
        (tool : value) (name effect : string) (data : string) (w : world)
        (msg raw args : value) (text : string) :
  In tool declared_tools ->
  tool_name tool = Some name ->
  In effect (tool_effects tool) ->
  JSON_parse data = Some msg ->
  property msg "type" = Some (JString "response.function_call_arguments.done") ->
  property msg "name" = Some (JString name) ->
  property msg "arguments" = Some raw ->
  to_string raw = Some text ->
  JSON_parse text = Some args ->
  property args "effect" = Some (JString effect) ->
  imageEffect (st (run (onmessage data) w)) = JString effect /\
  exists drawn copies,
    overlays (st (run (onmessage data) w)) = [(drawn, copies)] /\
    effects (render (st (run (onmessage data) w))) = [(drawn, copies)].
Proof.
  intros Htool Hname Heff Hp Ht Hn Ha Hs Hj He.
  destruct declared_tool as (tool' & Htools & Hname' & Heffs).
  rewrite Htools in Htool. destruct Htool as [<- | []].
  rewrite Hname' in Hname. injection Hname as <-.
  rewrite Heffs in Heff.
  destruct (property_total _ _ _ "call_id" Ht) as [call_id Hc].
  pose proof (onmessage_function_call data w msg raw args _ call_id _ text
                Hp Ht Ha Hs Hj Hn Hc He) as H.
  unfold run. rewrite H. clear H.
  destruct Heff as [<- | [<- | [<- | []]]]; cbn; split; try reflexivity;
    eexists; eexists; split; reflexivity.
Qed.

(** X13. An effect the view does not know.  A tool call for
    ['add_effect_to_image'] whose effect is truthy but is none of
    ['sparkle'], ['heart'], ['star'] is stored in [imageEffect] and
    acknowledged with [success: true], yet no overlay is drawn. *)
Theorem unknown_effect_draws_nothing
        (data : string) (w : world) (msg raw args call_id effect : value)
        (text : string) :
  JSON_parse data = Some msg ->
  property msg "type" = Some (JString "response.function_call_arguments.done") ->
  property msg "name" = Some (JString "add_effect_to_image") ->
  property msg "call_id" = Some call_id ->
  property msg "arguments" = Some raw ->
  to_string raw = Some text ->
  JSON_parse text = Some args ->
  property args "effect" = Some effect ->
  truthy effect = true ->
  (forall name, In name ["sparkle"; "heart"; "star"] -> effect <> JString name) ->
  imageEffect (st (run (onmessage data) w)) = effect /\
  overlays (st (run (onmessage data) w)) = [] /\
  In (Send (JSON_stringify (functionOutput call_id effect)))
     (calls_of (onmessage data) w).
Proof.
  intros Hp Ht Hn Hc Ha Hs Hj He Htruthy Hother.
  pose proof (onmessage_function_call data w msg raw args _ call_id effect text
                Hp Ht Ha Hs Hj Hn Hc He) as H.
  rewrite Htruthy in H. cbn [is_string String.eqb Ascii.eqb Bool.eqb andb] in H.
  rewrite (calls_of_logged _ w
    [ Console_log "Message:" (JString "response.function_call_arguments.done");
      SetImageEffect effect; SetTimeout 2000;
      Send (JSON_stringify (functionOutput call_id effect));
      Send (JSON_stringify response_create) ])
    by (unfold run; rewrite H; reflexivity).
  unfold run. rewrite H. cbn [snd st imageEffect]. unfold overlays.
  cbn [imageEffect].
  rewrite !is_string_false by (apply Hother; cbn; tauto).
  split; [reflexivity|]. split; [reflexivity|]. cbn. tauto.
Qed.


(** ** [stopConversation]: what it releases *)

Definition release_calls (r : refs) : list call :=
  match pcRef r with Some h => [Close_pc h] | None => [] end ++
  match dataChannelRef r with Some h => [Close_dc h] | None => [] end ++
  match audioElementRef r with Some h => [Detach_audio h] | None => [] end ++
  match timerRef r with Some h => [ClearInterval h] | None => [] end.

Lemma stopConversation_calls (w : world) :
  calls_of stopConversation w =
  release_calls (rf w) ++
  [SetAIState idle; SetIsActive false; SetTimeRemaining CONVERSATION_DURATION].
Proof.
  unfold release_calls.
  destruct w as [s [[p|] [d|] [a|] [t|]] iv n l];
    unfold calls_of, stopConversation; js; count_calls; reflexivity.
Qed.

(** X14. Stopping releases what is held, once, and silences the timer.
    [stopConversation] closes the peer connection, closes the data
    channel, detaches the audio element and clears the interval, each
    exactly when its ref is not [null] and in this order, and keeps the
    transcript; in a reachable world no interval runs afterwards, so a
    late tick does nothing, and the timer effect does not start a new
    one. *)
Theorem stop_releases_and_silences (w : world) :
  reachable w ->
  let w1 := step w Click_stop in
  calls_of stopConversation w =
    release_calls (rf w) ++
    [SetAIState idle; SetIsActive false; SetTimeRemaining CONVERSATION_DURATION] /\
  transcript (st w1) = transcript (st w) /\
  intervals w1 = [] /\
  step w1 Interval_fires = w1 /\
  (forall id, intervals (step w1 (Effect_runs id)) = []).
Proof.
  intros Hr w1. pose proof (reachable_crash_invariant w Hr) as Hci.
  apply reachable_invariant in Hr.
  pose proof (step_invariant w Click_stop Hr) as Hinv1. fold w1 in Hinv1.
  split; [apply stopConversation_calls|].
  assert (Hstop : forall data, Click_stop <> Channel_message data)
    by (intros data E; discriminate E).
  assert (Hiv : intervals w1 = []).
  { destruct (crashed w) eqn:Hc.
    - subst w1. unfold step. rewrite Hc. apply Hci, Hc.
    - destruct (step_mounted w Click_stop Hc Hstop) as (Hw1 & _).
      fold w1 in Hw1. rewrite Hw1.
      pose proof (dispatch_timer w Click_stop Hr) as H. cbn zeta in H.
      apply H. }
  split.
  { destruct (step_state w Click_stop) as [(Hs & _) | Hs]; fold w1 in Hs;
      rewrite Hs; [|reflexivity].
    unfold dispatch, handler. rewrite stopConversation_state. reflexivity. }
  split; [exact Hiv|]. split.
  { rewrite (step_callback w1 Interval_fires) by auto.
    rewrite dispatch_interval, Hiv. reflexivity. }
  intros id. destruct (crashed w) eqn:Hc.
  - assert (Hc1 : crashed w1 = true) by (subst w1; unfold step; rewrite Hc; exact Hc).
    unfold step. rewrite Hc1. exact Hiv.
  - destruct (step_mounted w Click_stop Hc Hstop) as (Hw1 & Hc1).
    fold w1 in Hw1, Hc1.
    assert (Hev : forall data, Effect_runs id <> Channel_message data)
      by (intros data E; discriminate E).
    destruct (step_mounted w1 (Effect_runs id) Hc1 Hev) as (-> & _).
    pose proof (dispatch_timer w1 (Effect_runs id) Hinv1) as H. cbn zeta in H.
    assert (Hact : isActive (st w1) = false).
    { rewrite Hw1. pose proof (dispatch_timer w Click_stop Hr) as H0.
      cbn zeta in H0. apply H0. }
    rewrite Hact in H. cbn [andb] in H. apply H.
Qed.

(** ** Missing fields *)

(** X16. A completed input transcription without a [transcript] field is
    not skipped: the template literal spells the missing value, and the
    line ["You: undefined"] is added to the transcript (["You: null"]
    for a [null] transcript). *)
Theorem missing_user_transcript (data : string) (w : world) (msg said : value) :
  JSON_parse data = Some msg ->
  property msg "type" =
    Some (JString "conversation.item.input_audio_transcription.completed") ->
  property msg "transcript" = Some said ->
  (said = JUndefined ->
   transcript (st (run (onmessage data) w)) = transcript (st w) ++ ["You: undefined"]) /\
  (said = JNull ->
   transcript (st (run (onmessage data) w)) = transcript (st w) ++ ["You: null"]) /\
  (forall s, said = JString s ->
   transcript (st (run (onmessage data) w)) =
   transcript (st w) ++ [String.append "You: " s]).
Proof.
  intros Hp Ht Hs.
  pose proof (onmessage_user_transcript data w msg said Hp Ht Hs) as H.
  unfold run. rewrite H. cbn [snd].
  split; [|split]; [intros -> | intros -> | intros s ->]; reflexivity.
Qed.

(** X17. The badge tells the five states apart: no two states share a
    colour or a text. *)
Theorem badge_identifies_state (s1 s2 : state) :
  (getStateColor s1 = getStateColor s2 -> aiState s1 = aiState s2) /\
  (getStateText s1 = getStateText s2 -> aiState s1 = aiState s2).
Proof.
  unfold getStateColor, getStateText.
  destruct (aiState s1), (aiState s2); split; intros H;
    try reflexivity; discriminate H.
Qed.

End App.

Arguments JUndefined {number}.
Arguments JNull {number}.
Arguments JBool {number} b.
Arguments JNumber {number} n.
Arguments JString {number} s.
Arguments JArray {number} items.
Arguments JObject {number} fields.
Arguments Normal {number A} a.
Arguments Throw {number A} e.
Arguments SyntaxError {number}.
Arguments TypeError {number}.

(** * A reference platform

    To run the component on wire text the platform's parameters are
    instantiated: numbers are the integers, and [JSON.parse] and
    [JSON.stringify] are implemented for the fragment of JSON whose
    numbers are integer literals and whose strings have no [\u] escape.
    A text outside the fragment is rejected; on a text of the fragment
    the parser gives what [JSON.parse] gives. *)

Module Json.

Definition quote : ascii := "034"%char.
Definition backslash : ascii := "092"%char.

Definition is_space (c : ascii) : bool :=
  match nat_of_ascii c with
  | 32%nat | 9%nat | 10%nat | 13%nat => true
  | _ => false
  end.

Definition is_digit (c : ascii) : bool :=
  let n := nat_of_ascii c in (48 <=? n)%nat && (n <=? 57)%nat.

Definition digit_value (c : ascii) : Z := Z.of_nat (nat_of_ascii c) - 48.

Fixpoint skip_ws (s : string) : string :=
  match s with
  | String c rest => if is_space c then skip_ws rest else s
  | EmptyString => s
  end.

(** The characters of a string literal after its opening quote, and what
    follows the closing quote. *)
Fixpoint string_body (s : string) : option (string * string) :=
  match s with
  | EmptyString => None
  | String c rest =>
      if Ascii.eqb c quote then Some (EmptyString, rest)
      else if Ascii.eqb c backslash then
        match rest with
        | EmptyString => None
        | String e rest' =>
            let plain (x : ascii) :=
              match string_body rest' with
              | Some (body, after) => Some (String x body, after)
              | None => None
              end in
            if Ascii.eqb e quote then plain quote
            else if Ascii.eqb e backslash then plain backslash
            else if Ascii.eqb e "/" then plain "/"%char
            else if Ascii.eqb e "b" then plain "008"%char
            else if Ascii.eqb e "f" then plain "012"%char
            else if Ascii.eqb e "n" then plain "010"%char
            else if Ascii.eqb e "r" then plain "013"%char
            else if Ascii.eqb e "t" then plain "009"%char
            else None
        end
      else if (nat_of_ascii c <? 32)%nat then None
      else
        match string_body rest with
        | Some (body, after) => Some (String c body, after)
        | None => None
        end
  end.

Fixpoint digits (acc : Z) (s : string) : Z * string :=
  match s with
  | String c rest =>
      if is_digit c then digits (10 * acc + digit_value c) rest else (acc, s)
  | EmptyString => (acc, s)
  end.

(** An integer literal: [0], or a digit other than [0] followed by
    digits; a fraction or an exponent after it is outside the fragment. *)
Definition natural (s : string) : option (Z * string) :=
  match s with
  | String c rest =>
      if negb (is_digit c) then None
      else
        let '(n, after) :=
          if Ascii.eqb c "0" then (0, rest) else digits (digit_value c) rest in
        match after with
        | String d _ =>
            if is_digit d || Ascii.eqb d "." || Ascii.eqb d "e" || Ascii.eqb d "E"
            then None else Some (n, after)
        | EmptyString => Some (n, after)
        end
  | EmptyString => None
  end.

Definition keyword (k : string) (v : value Z) (s : string)
  : option (value Z * string) :=
  if String.prefix k s
  then Some (v, substring (String.length k) (String.length s - String.length k) s)
  else None.

Fixpoint parse_value (fuel : nat) (s : string) : option (value Z * string) :=
  match fuel with
  | O => None
  | S fuel =>
      match skip_ws s with
      | EmptyString => None
      | String c rest =>
          if Ascii.eqb c quote then
            match string_body rest with
            | Some (body, after) => Some (JString body, after)
            | None => None
            end
          else if Ascii.eqb c "[" then
            match skip_ws rest with
            | String "]" after => Some (JArray [], after)
            | _ =>
                match parse_elements fuel rest with
                | Some (items, after) => Some (JArray items, after)
                | None => None
                end
            end
          else if Ascii.eqb c "{" then
            match skip_ws rest with
            | String "}" after => Some (JObject [], after)
            | _ =>
                match parse_members fuel rest with
                | Some (fields, after) => Some (JObject fields, after)
                | None => None
                end
            end
          else if Ascii.eqb c "t" then keyword "true" (JBool true) (String c rest)
          else if Ascii.eqb c "f" then keyword "false" (JBool false) (String c rest)
          else if Ascii.eqb c "n" then keyword "null" JNull (String c rest)
          else if Ascii.eqb c "-" then
            match natural rest with
            | Some (n, after) => Some (JNumber (- n), after)
            | None => None
            end
          else
            match natural (String c rest) with
            | Some (n, after) => Some (JNumber n, after)
            | None => None
            end
      end
  end

with parse_elements (fuel : nat) (s : string) : option (list (value Z) * string) :=
  match fuel with
  | O => None
  | S fuel =>
      match parse_value fuel s with
      | None => None
      | Some (v, after) =>
          match skip_ws after with
          | String "," more =>
              match parse_elements fuel more with
              | Some (vs, rest) => Some (v :: vs, rest)
              | None => None
              end
          | String "]" rest => Some ([v], rest)
          | _ => None
          end
      end
  end

with parse_members (fuel : nat) (s : string)
  : option (list (string * value Z) * string) :=
  match fuel with
  | O => None
  | S fuel =>
      match skip_ws s with
      | String c rest =>
          if negb (Ascii.eqb c quote) then None
          else
            match string_body rest with
            | None => None
            | Some (key, after_key) =>
                match skip_ws after_key with
                | String ":" after_colon =>
                    match parse_value fuel after_colon with
                    | None => None
                    | Some (v, after) =>
                        match skip_ws after with
                        | String "," more =>
                            match parse_members fuel more with
                            | Some (fs, rest) => Some ((key, v) :: fs, rest)
                            | None => None
                            end
                        | String "}" rest => Some ([(key, v)], rest)
                        | _ => None
                        end
                    end
                | _ => None
                end
            end
      | EmptyString => None
      end
  end.

(** [JSON.parse]: one value, with white space around it and nothing else. *)
Definition parse (s : string) : option (value Z) :=
  match parse_value (2 * String.length s + 2) s with
  | Some (v, after) =>
      match skip_ws after with
      | EmptyString => Some v
      | _ => None
      end
  | None => None
  end.

(** [JSON.stringify]. *)

Definition hex_digit (n : nat) : ascii :=
  ascii_of_nat (if (n <? 10)%nat then 48 + n else 87 + n).

Definition escape (c : ascii) : string :=
  if Ascii.eqb c quote then String backslash (String quote EmptyString)
  else if Ascii.eqb c backslash then String backslash (String backslash EmptyString)
  else
    match nat_of_ascii c with
    | 8%nat => String backslash "b"
    | 9%nat => String backslash "t"
    | 10%nat => String backslash "n"
    | 12%nat => String backslash "f"
    | 13%nat => String backslash "r"
    | n =>
        if (n <? 32)%nat then
          String backslash
                 (String "u" (String "0" (String "0"
                    (String (hex_digit (n / 16))
                       (String (hex_digit (n mod 16)) EmptyString)))))
        else String c EmptyString
    end.

Fixpoint escaped (s : string) : string :=
  match s with
  | EmptyString => EmptyString
  | String c rest => String.append (escape c) (escaped rest)
  end.

Definition quoted (s : string) : string :=
  String quote (String.append (escaped s) (String quote EmptyString)).

Definition of_int (n : Z) : string := NilZero.string_of_int (Z.to_int n).

Fixpoint comma_separated (parts : list string) : string :=
  match parts with
  | [] => EmptyString
  | [p] => p
  | p :: rest => String.append p (String.append "," (comma_separated rest))
  end.

(** A property whose value is [undefined] is left out of an object; an
    [undefined] element of an array is written [null].  The component
    never passes [undefined] itself. *)
Fixpoint stringify (v : value Z) : string :=
  match v with
  | JUndefined => "undefined"
  | JNull => "null"
  | JBool true => "true"
  | JBool false => "false"
  | JNumber n => of_int n
  | JString s => quoted s
  | JArray items =>
      String.append "["
        (String.append
           (comma_separated
              ((fix each (l : list (value Z)) : list string :=
                  match l with
                  | [] => []
                  | JUndefined :: rest => "null" :: each rest
                  | x :: rest => stringify x :: each rest
                  end) items))
           "]")
  | JObject fields =>
      String.append "{"
        (String.append
           (comma_separated
              ((fix each (l : list (string * value Z)) : list string :=
                  match l with
                  | [] => []
                  | (_, JUndefined) :: rest => each rest
                  | (k, x) :: rest =>
                      String.append (quoted k) (String.append ":" (stringify x))
                        :: each rest
                  end) fields))
           "}")
  end.

Definition truthy_number (n : Z) : bool := negb (n =? 0).

(** Wire text written with apostrophes in place of double quotes. *)
Fixpoint wire (s : string) : string :=
  match s with
  | EmptyString => EmptyString
  | String c rest => String (if Ascii.eqb c "'" then quote else c) (wire rest)
  end.

End Json.

Arguments Console_log {number} label v.
Arguments Console_error {number} label e.
Arguments Send {number} payload.
Arguments SetAIState {number} s.
Arguments SetIsActive {number} b.
Arguments SetTimeRemaining {number} n.
Arguments SetTranscript {number} lines.
Arguments SetImageEffect {number} v.
Arguments SetTimeout {number} ms.
Arguments Click_start {number} env.
Arguments Click_stop {number}.
Arguments Interval_fires {number}.
Arguments Effect_runs {number} id.
Arguments Channel_opens {number}.
Arguments Channel_message {number} data.
Arguments Timeout_fires {number}.
Arguments mkResponse {number} ok json.
Arguments mkEnv {number}.
Arguments mkState {number}.
Arguments mkWorld {number}.
Arguments st {number} w.
Arguments rf {number} w.
Arguments intervals {number} w.
Arguments timeouts {number} w.
Arguments log {number} w.
Arguments aiState {number} s.
Arguments timeRemaining {number} s.
Arguments isActive {number} s.
Arguments transcript {number} s.
Arguments imageEffect {number} s.
Arguments property {number} v k.
Arguments run {number A} m w.
Arguments result {number A} m w.
Arguments calls_of {number A} m w.
Arguments side_effects {number} calls.
Arguments is_send {number} c.
Arguments Updater_throws {number} e.
Arguments crashed {number} w.

(** * The component on the reference platform *)

Section Examples.

Local Notation "'onmessage_ref'" :=
  (onmessage Z Json.truthy_number Json.of_int Json.parse Json.stringify).
Local Notation "'step_ref'" :=
  (step Z Json.truthy_number Json.of_int Json.parse Json.stringify).
Local Notation "'steps_ref'" :=
  (steps Z Json.truthy_number Json.of_int Json.parse Json.stringify).
Local Notation "'startConversation_ref'" :=
  (startConversation Z Json.truthy_number Json.of_int).

(** A tool call as the service sends it:
    [{"type":"response.function_call_arguments.done","name":"add_effect_to_image",
      "call_id":"call_1","arguments":"{\"effect\":\"sparkle\"}"}]. *)
Definition tool_call_text : string :=
  Json.wire "{'type':'response.function_call_arguments.done','name':'add_effect_to_image','call_id':'call_1','arguments':'{\'effect\':\'sparkle\'}'}".

Definition tool_call_message : value Z :=
  JObject
    [ ("type", JString "response.function_call_arguments.done");
      ("name", JString "add_effect_to_image");
      ("call_id", JString "call_1");
      ("arguments", JString (Json.wire "{'effect':'sparkle'}")) ].

(** A call of a function the component does not know, with the same
    arguments. *)
Definition unknown_call_text : string :=
  Json.wire "{'type':'response.function_call_arguments.done','name':'get_weather','call_id':'call_2','arguments':'{\'effect\':\'sparkle\'}'}".

Definition unknown_call_message : value Z :=
  JObject
    [ ("type", JString "response.function_call_arguments.done");
      ("name", JString "get_weather");
      ("call_id", JString "call_2");
      ("arguments", JString (Json.wire "{'effect':'sparkle'}")) ].

(** A tool call whose arguments are the JSON text [null]. *)
Definition null_arguments_text : string :=
  Json.wire "{'type':'response.function_call_arguments.done','name':'add_effect_to_image','call_id':'call_3','arguments':'null'}".

Definition null_arguments_message : value Z :=
  JObject
    [ ("type", JString "response.function_call_arguments.done");
      ("name", JString "add_effect_to_image");
      ("call_id", JString "call_3");
      ("arguments", JString "null") ].

Example tool_call_text_parses : Json.parse tool_call_text = Some tool_call_message.
Proof. vm_compute. reflexivity. Qed.

Example unknown_call_text_parses :
  Json.parse unknown_call_text = Some unknown_call_message.
Proof. vm_compute. reflexivity. Qed.

Example null_arguments_text_parses :
  Json.parse null_arguments_text = Some null_arguments_message.
Proof. vm_compute. reflexivity. Qed.

Example initialMessage_round_trip :
  Json.parse (Json.stringify (initialMessage Z)) = Some (initialMessage Z).
Proof. vm_compute. reflexivity. Qed.

(** The tool call of [tool_call_text] sets the effect and is acknowledged. *)
Lemma tool_call_add_effect_witness :
  imageEffect (st (run (onmessage_ref tool_call_text) (initial_world Z))) =
    JString "sparkle" /\
  calls_of (onmessage_ref tool_call_text) (initial_world Z) =
    [ Console_log "Message:" (JString "response.function_call_arguments.done");
      SetImageEffect (JString "sparkle");
      SetTimeout 2000;
      Send (Json.wire "{'type':'conversation.item.create','item':{'type':'function_call_output','call_id':'call_1','output':'{\'success\':true,\'effect\':\'sparkle\'}'}}");
      Send (Json.wire "{'type':'response.create'}") ].
Proof.
  destruct (tool_call_add_effect Z Json.truthy_number Json.of_int Json.parse
              Json.stringify tool_call_text (initial_world Z)
              tool_call_message (JString (Json.wire "{'effect':'sparkle'}"))
              (JObject [("effect", JString "sparkle")])
              (JString "call_1") (JString "sparkle")
              (Json.wire "{'effect':'sparkle'}"))
    as (_ & Himage & Hcalls & _);
    try (vm_compute; reflexivity).
  split; [exact Himage|]. rewrite Hcalls. vm_compute. reflexivity.
Defined.

(** The same tool call makes four calls that are not console output:
    the two setters, then the two sends. *)
Lemma side_effects_per_branch_witness :
  side_effects (calls_of (onmessage_ref tool_call_text) (initial_world Z)) =
    [ SetImageEffect (JString "sparkle");
      SetTimeout 2000;
      Send (Json.stringify
              (functionOutput Z Json.stringify (JString "call_1")
                              (JString "sparkle")));
      Send (Json.stringify (response_create Z)) ].
Proof.
  destruct (side_effects_per_branch Z Json.truthy_number Json.of_int Json.parse
              Json.stringify tool_call_text (initial_world Z)
              tool_call_message "response.function_call_arguments.done"
              tool_call_text_parses eq_refl)
    as (_ & _ & _ & Hcall & _).
  destruct (Hcall eq_refl
                  (JString (Json.wire "{'effect':'sparkle'}"))
                  (JString "add_effect_to_image") (JString "call_1")
                  eq_refl eq_refl eq_refl)
    as (_ & _ & _ & Hsent).
  exact (Hsent (Json.wire "{'effect':'sparkle'}")
               (JObject [("effect", JString "sparkle")])
               (JString "sparkle") eq_refl eq_refl eq_refl).
Defined.

(** C4 fails as stated: on [tool_call_text], a message of a recognized
    type, the handler makes four calls that are not console output
    ([setImageEffect], [setTimeout] and two sends), not one. *)
Lemma one_side_effect_per_branch_counterexample :
  Json.parse tool_call_text = Some tool_call_message /\
  side_effects (calls_of (onmessage_ref tool_call_text) (initial_world Z)) =
    [ SetImageEffect (JString "sparkle");
      SetTimeout 2000;
      Send (Json.wire "{'type':'conversation.item.create','item':{'type':'function_call_output','call_id':'call_1','output':'{\'success\':true,\'effect\':\'sparkle\'}'}}");
      Send (Json.wire "{'type':'response.create'}") ] /\
  ~ one_side_effect_per_branch Z Json.truthy_number Json.of_int Json.parse
      Json.stringify.
Proof.
  split; [exact tool_call_text_parses|]. split; [vm_compute; reflexivity|].
  intros H.
  specialize (H tool_call_text (initial_world Z) tool_call_message
                "response.function_call_arguments.done"
                tool_call_text_parses eq_refl).
  assert (Hin : In "response.function_call_arguments.done" recognized_types)
    by (cbn; tauto).
  specialize (H Hin). vm_compute in H. discriminate H.
Qed.

(** A call of an unknown function is acknowledged and not executed. *)
Lemma tool_call_acknowledged_witness :
  filter is_send (calls_of (onmessage_ref unknown_call_text) (initial_world Z)) =
    [ Send (Json.wire "{'type':'conversation.item.create','item':{'type':'function_call_output','call_id':'call_2','output':'{\'success\':true,\'effect\':\'sparkle\'}'}}");
      Send (Json.wire "{'type':'response.create'}") ] /\
  imageEffect (st (run (onmessage_ref unknown_call_text) (initial_world Z))) =
    JString "none".
Proof.
  destruct (tool_call_acknowledged Z Json.truthy_number Json.of_int Json.parse
              Json.stringify unknown_call_text (initial_world Z)
              unknown_call_message (JString (Json.wire "{'effect':'sparkle'}"))
              (JObject [("effect", JString "sparkle")])
              (Json.wire "{'effect':'sparkle'}")
              unknown_call_text_parses eq_refl eq_refl eq_refl eq_refl eq_refl)
    as (name & call_id & effect & Hn & Hc & He & _ & Hsend & Himage & _).
  injection Hn as <-. injection Hc as <-. injection He as <-.
  split; [rewrite Hsend; vm_compute; reflexivity | exact Himage].
Defined.

(** C10 fails as stated: the arguments of [null_arguments_text] parse as
    JSON, to [null]; reading [args.effect] throws, the exception is
    caught, and nothing is sent. *)
Lemma every_parsed_call_acknowledged_counterexample :
  Json.parse null_arguments_text = Some null_arguments_message /\
  Json.parse "null" = Some JNull /\
  calls_of (onmessage_ref null_arguments_text) (initial_world Z) =
    [ Console_log "Message:" (JString "response.function_call_arguments.done");
      Console_error "Error processing message:" TypeError ] /\
  ~ every_parsed_call_acknowledged Z Json.truthy_number Json.of_int Json.parse
      Json.stringify.
Proof.
  split; [exact null_arguments_text_parses|]. split; [reflexivity|].
  assert (Hcalls :
    calls_of (onmessage_ref null_arguments_text) (initial_world Z) =
    [ Console_log "Message:" (JString "response.function_call_arguments.done");
      Console_error "Error processing message:" TypeError ])
    by (vm_compute; reflexivity).
  split; [exact Hcalls|].
  intros H.
  destruct (H null_arguments_text (initial_world Z) null_arguments_message
              (JString "null") "null" JNull
              null_arguments_text_parses eq_refl eq_refl eq_refl eq_refl)
    as (call_id & effect & Hin).
  rewrite Hcalls in Hin. destruct Hin as [E|[E|[]]]; discriminate E.
Qed.

(** A session endpoint that answers [{"error":"quota exceeded"}] with a
    status that is not ok. *)
Definition refused : start_env Z :=
  mkEnv (Some (mkResponse false (Some (JObject [("error", JString "quota exceeded")]))))
        (Some 1%nat) 2%nat (Some [3%nat]) (Some 4%nat) (Some "v=0") true
        (Some (Some "v=0")) true.

(** A session that is set up without a failure. *)
Definition granted : start_env Z :=
  mkEnv (Some (mkResponse true
                 (Some (JObject
                          [("client_secret",
                            JObject [("value", JString "ek_1")])]))))
        (Some 1%nat) 2%nat (Some [3%nat]) (Some 4%nat) (Some "v=0") true
        (Some (Some "v=0")) true.

Lemma startConversation_resets_on_error_witness :
  result (startConversation_ref refused) (initial_world Z) = Normal tt /\
  aiState (st (run (startConversation_ref refused) (initial_world Z))) = idle /\
  isActive (st (run (startConversation_ref refused) (initial_world Z))) = false.
Proof.
  destruct (startConversation_resets_on_error Z Json.truthy_number Json.of_int
              refused (initial_world Z)) as (Hnormal & Hcaught & Hrefused).
  destruct (Hrefused (mkResponse false
                        (Some (JObject [("error", JString "quota exceeded")])))
                     (JObject [("error", JString "quota exceeded")])
                     (JString "quota exceeded")
                     eq_refl eq_refl eq_refl eq_refl) as [w1 Hbody].
  destruct (Hcaught _ _ Hbody) as (Hidle & Hactive & _).
  split; [exact Hnormal|]. split; assumption.
Defined.


Example two_ticks :
  ticks_fired Z Json.truthy_number Json.of_int Json.parse Json.stringify
    (step_ref (initial_world Z) (Click_start granted))
    [Effect_runs 7%nat; Interval_fires; Interval_fires; Click_stop; Interval_fires]
  = 2%nat /\
  timeRemaining
    (st (steps_ref (initial_world Z)
           [Click_start granted; Effect_runs 7%nat; Interval_fires; Interval_fires]))
  = 58.
Proof. vm_compute. split; reflexivity. Qed.

(** A message of a type the handler does not know. *)
Definition rate_limits_text : string :=
  Json.wire "{'type':'rate_limits.updated','rate_limits':[]}".

Lemma unrecognized_message_ignored_witness :
  st (run (onmessage_ref rate_limits_text) (initial_world Z)) = st (initial_world Z) /\
  calls_of (onmessage_ref rate_limits_text) (initial_world Z) =
    [Console_log "Message:" (JString "rate_limits.updated")].
Proof.
  destruct (unrecognized_message_ignored Z Json.truthy_number Json.of_int
              Json.parse Json.stringify) as (_ & _ & _ & Hframe & _).
  destruct (Hframe rate_limits_text (initial_world Z)
                   (JObject [("type", JString "rate_limits.updated");
                             ("rate_limits", JArray [])])
                   (JString "rate_limits.updated") eq_refl eq_refl)
    as (_ & Hst & _ & _ & _ & Hcalls).
  - intros lit Hin E. injection E as <-.
    repeat (destruct Hin as [Hin|Hin]; [discriminate Hin|]). exact Hin.
  - split; assumption.
Defined.

Definition speech_started_text : string :=
  Json.wire "{'type':'input_audio_buffer.speech_started','audio_start_ms':120}".

Lemma turn_detection_is_server_side_witness :
  aiState (st (run (onmessage_ref speech_started_text) (initial_world Z))) = listening /\
  calls_of (onmessage_ref speech_started_text) (initial_world Z) =
    [ Console_log "Message:" (JString "input_audio_buffer.speech_started");
      SetAIState listening ].
Proof.
  destruct (turn_detection_is_server_side Z Json.truthy_number Json.of_int
              Json.parse Json.stringify) as (_ & _ & _ & Hspeech).
  apply (Hspeech speech_started_text (initial_world Z)
                 (JObject [("type", JString "input_audio_buffer.speech_started");
                           ("audio_start_ms", JNumber 120)])
                 eq_refl eq_refl).
Defined.

Definition user_said_text : string :=
  Json.wire "{'type':'conversation.item.input_audio_transcription.completed','transcript':'I see balloons'}".

Definition response_done_text : string :=
  Json.wire "{'type':'response.done','response':{'output':[{'content':[{'transcript':'What colors are they?'}]}]}}".


Example conversation_transcript :
  transcript (st (steps_ref (initial_world Z)
                    [ Click_start granted;
                      Channel_opens;
                      Channel_message user_said_text;
                      Channel_message response_done_text;
                      Click_stop ])) =
  [ "You: I see balloons"; "AI: What colors are they?" ].
Proof. vm_compute. reflexivity. Qed.

(** Data that is not JSON. *)
Lemma onmessage_never_throws_witness :
  result (onmessage_ref "ping") (initial_world Z) = Normal tt /\
  st (run (onmessage_ref "ping") (initial_world Z)) = st (initial_world Z) /\
  side_effects (calls_of (onmessage_ref "ping") (initial_world Z)) = [].
Proof.
  destruct (onmessage_never_throws Z Json.truthy_number Json.of_int Json.parse
              Json.stringify "ping" (initial_world Z))
    as (Hnormal & Hcaught & Hnotjson & _).
  destruct (Hcaught _ _ (Hnotjson eq_refl)) as (Hst & _ & _ & _ & Hnone & _).
  split; [exact Hnormal|]. split; assumption.
Defined.

(** An input transcription whose transcript is an object with its own
    [toString]:
    [{"type":"conversation.item.input_audio_transcription.completed",
      "transcript":{"toString":1}}]. *)
Definition unprintable_text : string :=
  Json.wire "{'type':'conversation.item.input_audio_transcription.completed','transcript':{'toString':1}}".

Definition unprintable_message : value Z :=
  JObject
    [ ("type", JString "conversation.item.input_audio_transcription.completed");
      ("transcript", JObject [("toString", JNumber 1)]) ].

Example unprintable_text_parses :
  Json.parse unprintable_text = Some unprintable_message.
Proof. vm_compute. reflexivity. Qed.

(** C9 fails as stated: on [unprintable_text] the handler returns
    normally and logs no error, but the updater it gave to
    [setTranscript] throws a [TypeError] that no [catch] sees; in a
    running conversation the component is unmounted and its interval
    cleared. *)
Lemma every_exception_caught_counterexample :
  Json.parse unprintable_text = Some unprintable_message /\
  result (onmessage_ref unprintable_text) (initial_world Z) = Normal tt /\
  calls_of (onmessage_ref unprintable_text) (initial_world Z) =
    [ Console_log "Message:"
        (JString "conversation.item.input_audio_transcription.completed");
      Updater_throws TypeError ] /\
  intervals (steps_ref (initial_world Z)
               [Click_start granted; Effect_runs 7%nat]) = [7%nat] /\
  crashed (steps_ref (initial_world Z)
             [Click_start granted; Effect_runs 7%nat;
              Channel_message unprintable_text]) = true /\
  intervals (steps_ref (initial_world Z)
               [Click_start granted; Effect_runs 7%nat;
                Channel_message unprintable_text]) = [] /\
  ~ every_exception_caught Z Json.truthy_number Json.of_int Json.parse
      Json.stringify.
Proof.
  split; [exact unprintable_text_parses|].
  split; [vm_compute; reflexivity|]. split; [vm_compute; reflexivity|].
  split; [vm_compute; reflexivity|]. split; [vm_compute; reflexivity|].
  split; [vm_compute; reflexivity|].
  intros H.
  destruct (H unprintable_text (initial_world Z)) as (_ & Hnone & _).
  apply (Hnone TypeError). vm_compute. auto.
Qed.

End Examples.

Arguments render {number} s.
Arguments overlays {number} s.
Arguments control {number} s.
Arguments getStateText {number} s.
Arguments getStateColor {number} s.
Arguments badge_icons {number} s.
Arguments conversation {number} s.
Arguments Platform {number} name.
Arguments Rejected {number} what.

(** * More runs on the reference platform *)

Section MoreExamples.

Local Notation "'onmessage_ref'" :=
  (onmessage Z Json.truthy_number Json.of_int Json.parse Json.stringify).
Local Notation "'onmessage_body_ref'" :=
  (onmessage_body Z Json.truthy_number Json.of_int Json.parse Json.stringify).
Local Notation "'step_ref'" :=
  (step Z Json.truthy_number Json.of_int Json.parse Json.stringify).
Local Notation "'steps_ref'" :=
  (steps Z Json.truthy_number Json.of_int Json.parse Json.stringify).
Local Notation "'reachable_ref'" :=
  (reachable Z Json.truthy_number Json.of_int Json.parse Json.stringify).
Local Notation "'startConversation_ref'" :=
  (startConversation Z Json.truthy_number Json.of_int).

(** The world after the events [evs]. *)
Definition after (evs : list (event Z)) : world Z := steps_ref (initial_world Z) evs.

Lemma after_reachable (evs : list (event Z)) : reachable_ref (after evs).
Proof. exists evs. reflexivity. Qed.

(** A message while the countdown runs: the interval keeps running. *)
Lemma message_leaves_session_alone_witness :
  intervals (step_ref (after [Click_start granted; Effect_runs 7%nat])
                      (Channel_message tool_call_text)) = [7%nat] /\
  timeRemaining (st (step_ref (after [Click_start granted; Effect_runs 7%nat])
                              (Channel_message tool_call_text))) = 60.
Proof.
  destruct (message_leaves_session_alone Z Json.truthy_number Json.of_int
              Json.parse Json.stringify tool_call_text
              (after [Click_start granted; Effect_runs 7%nat])
              (after_reachable _) eq_refl)
    as [(_ & _ & Htime & _ & Hiv & _) | (Hcrash & _)].
  - split; [rewrite Hiv | rewrite Htime]; vm_compute; reflexivity.
  - vm_compute in Hcrash. discriminate Hcrash.
Defined.

(** A ['response.done'] that carries nothing. *)
Definition bare_response_done_text : string := Json.wire "{'type':'response.done'}".

Lemma only_tool_calls_throw_witness :
  exists w1, onmessage_body_ref bare_response_done_text (initial_world Z) =
             (Normal tt, w1).
Proof.
  apply (only_tool_calls_throw Z Json.truthy_number Json.of_int Json.parse
           Json.stringify bare_response_done_text (initial_world Z)
           (JObject [("type", JString "response.done")])
           (JString "response.done") eq_refl eq_refl).
  discriminate.
Defined.

Lemma badge_never_thinking_witness :
  getStateText
    (st (after [Click_start granted; Channel_message speech_started_text])) <>
  "Thinking...".
Proof.
  apply (badge_never_thinking Z Json.truthy_number Json.of_int Json.parse
           Json.stringify _ (after_reachable _)).
Defined.

Lemma one_interval_at_most_witness :
  (length (intervals (after [Click_start granted; Effect_runs 7%nat;
                             Effect_runs 8%nat])) <= 1)%nat.
Proof.
  apply (one_interval_at_most Z Json.truthy_number Json.of_int Json.parse
           Json.stringify _ (after_reachable _)).
Defined.


Lemma image_effect_is_reset_witness :
  imageEffect (st (step_ref (after [Channel_message tool_call_text])
                            Timeout_fires)) = JString "none".
Proof.
  destruct (image_effect_is_reset Z Json.truthy_number Json.of_int Json.parse
              Json.stringify) as (_ & Hfires).
  apply (Hfires (after [Channel_message tool_call_text])).
  vm_compute. lia.
Defined.

Lemma clock_reads_minutes_and_seconds_witness : clock 59 = minutes_seconds 59.
Proof.
  destruct (clock_reads_minutes_and_seconds Z Json.truthy_number Json.of_int
              Json.parse Json.stringify) as (Hclock & _).
  apply Hclock. lia.
Defined.

Lemma transcript_lines_coloured_witness :
  Forall (fun line =>
            (exists s, line = String.append "You: " s /\
                       line_class line = "bg-blue-100 text-blue-900") \/
            (exists s, line = String.append "AI: " s /\
                       line_class line = "bg-green-100 text-green-900"))
         (transcript (st (after [Click_start granted;
                                 Channel_message user_said_text;
                                 Channel_message response_done_text]))).
Proof.
  apply (transcript_lines_coloured Z Json.truthy_number Json.of_int Json.parse
           Json.stringify _ (after_reachable _)).
Defined.

Example conversation_panel :
  panel (render (st (after [Click_start granted;
                            Channel_message user_said_text;
                            Channel_message response_done_text]))) =
  Some [ ("bg-blue-100 text-blue-900", "You: I see balloons");
         ("bg-green-100 text-green-900", "AI: What colors are they?") ].
Proof. vm_compute. reflexivity. Qed.

(** The session is granted, the microphone is not. *)
Definition no_microphone : start_env Z :=
  mkEnv (Some (mkResponse true
                 (Some (JObject
                          [("client_secret",
                            JObject [("value", JString "ek_1")])]))))
        (Some 1%nat) 2%nat None (Some 4%nat) (Some "v=0") true
        (Some (Some "v=0")) true.

Lemma microphone_refused_witness :
  control (st (run (startConversation_ref no_microphone) (initial_world Z))) =
    Start_button /\
  isActive (st (run (startConversation_ref no_microphone) (initial_world Z))) =
    false.
Proof.
  destruct (microphone_refused Z Json.truthy_number Json.of_int no_microphone
              (initial_world Z)
              (mkResponse true
                 (Some (JObject
                          [("client_secret",
                            JObject [("value", JString "ek_1")])])))
              (JObject [("client_secret", JObject [("value", JString "ek_1")])])
              1%nat eq_refl eq_refl eq_refl eq_refl eq_refl)
    as (_ & _ & Hactive & Hbutton & _).
  split; assumption.
Defined.

Lemma declared_effects_are_drawn_witness :
  imageEffect (st (run (onmessage_ref tool_call_text) (initial_world Z))) =
    JString "sparkle" /\
  exists drawn copies,
    overlays (st (run (onmessage_ref tool_call_text) (initial_world Z))) =
      [(drawn, copies)] /\
    effects (render (st (run (onmessage_ref tool_call_text) (initial_world Z)))) =
      [(drawn, copies)].
Proof.
  apply (declared_effects_are_drawn Z Json.truthy_number Json.of_int Json.parse
           Json.stringify (hd JNull (declared_tools Z))
           "add_effect_to_image" "sparkle" tool_call_text (initial_world Z)
           tool_call_message (JString (Json.wire "{'effect':'sparkle'}"))
           (JObject [("effect", JString "sparkle")])
           (Json.wire "{'effect':'sparkle'}"));
    try reflexivity; vm_compute; auto.
Defined.

(** A tool call for an effect the view has no overlay for. *)
Definition rainbow_text : string :=
  Json.wire "{'type':'response.function_call_arguments.done','name':'add_effect_to_image','call_id':'call_4','arguments':'{\'effect\':\'rainbow\'}'}".

Lemma unknown_effect_draws_nothing_witness :
  imageEffect (st (run (onmessage_ref rainbow_text) (initial_world Z))) =
    JString "rainbow" /\
  overlays (st (run (onmessage_ref rainbow_text) (initial_world Z))) = [].
Proof.
  destruct (unknown_effect_draws_nothing Z Json.truthy_number Json.of_int
              Json.parse Json.stringify rainbow_text (initial_world Z)
              (JObject
                 [ ("type", JString "response.function_call_arguments.done");
                   ("name", JString "add_effect_to_image");
                   ("call_id", JString "call_4");
                   ("arguments", JString (Json.wire "{'effect':'rainbow'}")) ])
              (JString (Json.wire "{'effect':'rainbow'}"))
              (JObject [("effect", JString "rainbow")])
              (JString "call_4") (JString "rainbow")
              (Json.wire "{'effect':'rainbow'}"))
    as (Himage & Hnone & _); try (vm_compute; reflexivity).
  - intros name Hin E. injection E as <-.
    repeat (destruct Hin as [Hin|Hin]; [discriminate Hin|]). exact Hin.
  - split; assumption.
Defined.

Lemma stop_releases_and_silences_witness :
  intervals (step_ref (after [Click_start granted; Effect_runs 7%nat]) Click_stop) = [] /\
  calls_of (stopConversation Z) (after [Click_start granted; Effect_runs 7%nat]) =
    [ Close_pc Z 1%nat; Close_dc Z 4%nat; Detach_audio Z 2%nat; ClearInterval Z 7%nat;
      SetAIState idle; SetIsActive false; SetTimeRemaining 60 ].
Proof.
  destruct (stop_releases_and_silences Z Json.truthy_number Json.of_int
              Json.parse Json.stringify _
              (after_reachable [Click_start granted; Effect_runs 7%nat]))
    as (Hcalls & _ & Hnone & _).
  split; [exact Hnone|]. rewrite Hcalls. vm_compute. reflexivity.
Defined.

Definition silent_transcription_text : string :=
  Json.wire "{'type':'conversation.item.input_audio_transcription.completed'}".

Lemma missing_user_transcript_witness :
  transcript (st (run (onmessage_ref silent_transcription_text) (initial_world Z))) =
  ["You: undefined"].
Proof.
  destruct (missing_user_transcript Z Json.truthy_number Json.of_int Json.parse
              Json.stringify silent_transcription_text (initial_world Z)
              (JObject [("type",
                         JString "conversation.item.input_audio_transcription.completed")])
              JUndefined eq_refl eq_refl eq_refl) as (Hmissing & _).
  exact (Hmissing eq_refl).
Defined.

Lemma badge_identifies_state_witness :
  aiState (st (after [Click_start granted])) =
  aiState (st (after [Click_start granted; Channel_opens])).
Proof.
  destruct (badge_identifies_state Z (st (after [Click_start granted]))
              (st (after [Click_start granted; Channel_opens]))) as (Hcolor & _).
  apply Hcolor. vm_compute. reflexivity.
Defined.

End MoreExamples.
